(** * Parameter code generation for dynamic-instrumentation probes

    A shallow embedding of [pkg/dynamicinstrumentation/codegen/codegen.go]
    and the properties of its header and body generators.

    The Go code writes into an [io.Writer] that is always a [bytes.Buffer];
    here a buffer is the string written so far and every generator takes the
    buffer and returns the buffer after its writes together with its [error]
    result ([None] is Go's [nil]).  [text/template] is an interface of the
    development: parsing and executing a template are operations of a
    [TemplateEngine], and the template texts, which are constants of another
    file of the package, are fields of [TemplateTexts]. *)

From Stdlib Require Import String Ascii List Bool NArith ZArith Arith Lia DecimalString.
From Stdlib.Strings Require Import Byte.
Import ListNotations.
Open Scope list_scope.
Open Scope string_scope.

Set Warnings "-register-all".

(** ** Errors *)

(** Go [error] values built in this package: [errors.New] and [fmt.Errorf]
    without a wrapping verb give a plain message, [fmt.Errorf] with [%w]
    wraps an inner error behind a prefix. *)
Inductive error : Type :=
| errorString (msg : string)
| wrapError (prefix : string) (inner : error).

Module errors.
Definition New (msg : string) : error := errorString msg.
End errors.

(** The [Error()] method: the message a Go caller would print. *)
Fixpoint Error (e : error) : string :=
  match e with
  | errorString msg => msg
  | wrapError prefix inner => prefix ++ Error inner
  end.

(** The [%d] verb of [fmt] on a length. *)
Definition fmt_d (n : nat) : string := NilEmpty.string_of_uint (Nat.to_uint n).

(** ** reflect.Kind *)

(** [Parameter.Kind] is a Go [uint] holding a [reflect.Kind]; the constants
    are those of the [reflect] package. *)
Module reflect.
Definition Kind := N.
Definition Bool : Kind := 1%N.
Definition Int : Kind := 2%N.
Definition Uint8 : Kind := 8%N.
Definition Array : Kind := 17%N.
Definition Map : Kind := 21%N.
Definition Pointer : Kind := 22%N.
Definition Slice : Kind := 23%N.
Definition String : Kind := 24%N.
Definition Struct : Kind := 25%N.
End reflect.

(** ** ditypes *)

(** Modelled from the spec: the type [ditypes.NotCaptureReason] (the spec's
    [CaptureVeto]) is declared outside this package; the spec gives it three
    values, of which the code names [Unsupported] and [FieldLimitReached]. *)
Inductive NotCaptureReason : Type :=
| NoReason
| Unsupported
| FieldLimitReached.

Definition NotCaptureReason_eqb (a b : NotCaptureReason) : bool :=
  match a, b with
  | NoReason, NoReason => true
  | Unsupported, Unsupported => true
  | FieldLimitReached, FieldLimitReached => true
  | _, _ => false
  end.

(** Modelled from the spec: [ditypes.Location], with the two fields the code
    reads. *)
Record Location : Type := mkLocation {
  InReg : bool;
  NeedsDereference : bool
}.

(** Modelled from the spec: [ditypes.Parameter], with the fields the code
    reads or writes.  It is named [Param] here and its field [Type] is
    [Type_], the Go names being reserved words. *)
Inductive Param : Type :=
  mkParameter (Name : string) (Type_ : string) (Kind : N) (Loc : Location)
              (Reason : NotCaptureReason) (ParameterPieces : list Param).

Definition Name (p : Param) : string :=
  match p with mkParameter n _ _ _ _ _ => n end.
Definition Type_ (p : Param) : string :=
  match p with mkParameter _ t _ _ _ _ => t end.
Definition Kind (p : Param) : N :=
  match p with mkParameter _ _ k _ _ _ => k end.
Definition Loc (p : Param) : Location :=
  match p with mkParameter _ _ _ l _ _ => l end.
Definition Reason (p : Param) : NotCaptureReason :=
  match p with mkParameter _ _ _ _ r _ => r end.
Definition ParameterPieces (p : Param) : list Param :=
  match p with mkParameter _ _ _ _ _ ps => ps end.

(** The assignment [param.Type = t]. *)
Definition set_Type (p : Param) (t : string) : Param :=
  match p with mkParameter n _ k l r ps => mkParameter n t k l r ps end.

(** The two wrapper records of the slice and string headers. *)
Record sliceHeaderWrapper : Type := mkSliceHeaderWrapper {
  slice_Parameter : Param;
  SliceLengthText : string;
  SliceTypeHeaderText : string
}.

Record stringHeaderWrapper : Type := mkStringHeaderWrapper {
  string_Parameter : Param;
  StringLengthText : string
}.

(** ** Templates *)

(** What [Execute] is given as its data argument in this package. *)
Inductive TemplateData : Type :=
| DataParameter (p : Param)
| DataSliceHeader (w : sliceHeaderWrapper)
| DataStringHeader (w : stringHeaderWrapper).

(** [template.New(name).Parse(text)] gives a template or an error;
    [t.Execute(out, data)] writes some text to [out] and gives an error or
    [nil]: text written before a failure stays written. *)
Class TemplateEngine : Type := {
  Template : Type;
  Parse : string -> string -> Template + error;
  Execute : Template -> TemplateData -> string * option error
}.

(** The template texts of the package. *)
Record TemplateTexts : Type := {
  headerTemplateText : string;
  stringRegisterHeaderTemplateText : string;
  stringStackHeaderTemplateText : string;
  sliceRegisterHeaderTemplateText : string;
  sliceStackHeaderTemplateText : string;
  stringLengthRegisterTemplateText : string;
  stringLengthStackTemplateText : string;
  sliceLengthRegisterTemplateText : string;
  sliceLengthStackTemplateText : string;
  unsupportedTypeTemplateText : string;
  cutForFieldLimitTemplateText : string;
  pointerRegisterTemplateText : string;
  pointerStackTemplateText : string;
  stringRegisterTemplateText : string;
  stringStackTemplateText : string;
  sliceRegisterTemplateText : string;
  sliceStackTemplateText : string;
  normalValueRegisterTemplateText : string;
  normalValueStackTemplateText : string
}.

(** A buffer is the text written to it so far. *)
Definition Buffer := string.

(** ** Probes, process information and the log *)

Record InstrumentationOptions : Type := mkInstrumentationOptions {
  CaptureParameters : bool;
  MaxReferenceDepth : nat
}.

Record InstrumentationInfo : Type := mkInstrumentationInfo {
  InstrumentationOptions_ : InstrumentationOptions;
  BPFParametersSourceCode : string
}.

Record Probe : Type := mkProbe {
  FuncName : string;
  InstrumentationInfo_ : InstrumentationInfo
}.

(** The assignment [probe.InstrumentationInfo.BPFParametersSourceCode = s]. *)
Definition set_BPFParametersSourceCode (probe : Probe) (s : string) : Probe :=
  mkProbe (FuncName probe)
          (mkInstrumentationInfo
             (InstrumentationOptions_ (InstrumentationInfo_ probe)) s).

(** [TypeMap.Functions] is a Go map from function names to parameter lists;
    reading a missing key gives the nil slice. *)
Record TypeMap : Type := mkTypeMap {
  Functions : list (string * list Param)
}.

Record ProcessInfo : Type := mkProcessInfo {
  TypeMap_ : TypeMap
}.

Fixpoint map_index (m : list (string * list Param)) (key : string)
  : list Param :=
  match m with
  | [] => []
  | (k, v) :: rest => if String.eqb k key then v else map_index rest key
  end.

Inductive LogLevel : Type := TraceLvl | DebugLvl | InfoLvl | WarnLvl | ErrorLvl.

Record LogEntry : Type := mkLogEntry {
  level : LogLevel;
  message : string
}.

Module log.
Definition Info (msg : string) (l : list LogEntry) : list LogEntry :=
  (l ++ [mkLogEntry InfoLvl msg])%list.
End log.

(** ** strings *)

Module strings.
(** [strings.TrimPrefix]: [s] without the leading [prefix], or [s] itself
    when it does not start with [prefix]. *)
Definition TrimPrefix (s prefix : string) : string :=
  if String.prefix prefix s
  then substring (String.length prefix)
                 (String.length s - String.length prefix) s
  else s.
End strings.

Definition cleanupTypeName (s : string) : string :=
  strings.TrimPrefix s "*".

(** ** The generators *)

Section Codegen.

Context {engine : TemplateEngine}.
Variable texts : TemplateTexts.

(** Three functions of the package that live in other files: the two passes
    of the capture limiter and the flattener. *)
Variable applyCaptureDepth : list Param -> nat -> list Param.
Variable applyFieldCountLimit : list Param -> list Param.
Variable flattenParameters : list Param -> list Param.

(** [t.Execute(out, data)] on a buffer: the text is appended. *)
Definition ExecuteTo (t : Template) (out : Buffer) (data : TemplateData)
  : Buffer * option error :=
  let (written, err) := Execute t data in (out ++ written, err).

Definition resolveHeaderTemplate (param : Param) : Template + error :=
  if (Kind param =? reflect.String)%N then
    if InReg (Loc param)
    then Parse "string_reg_header_template" (stringRegisterHeaderTemplateText texts)
    else Parse "string_stack_header_template" (stringStackHeaderTemplateText texts)
  else if (Kind param =? reflect.Slice)%N then
    if InReg (Loc param)
    then Parse "slice_reg_header_template" (sliceRegisterHeaderTemplateText texts)
    else Parse "slice_stack_header_template" (sliceStackHeaderTemplateText texts)
  else Parse "header_template" (headerTemplateText texts).

Definition generateStringLengthHeader (stringLengthParamPiece : Param)
  (buf : Buffer) : Buffer * option error :=
  match (if InReg (Loc stringLengthParamPiece)
         then Parse "string_register_length_header"
                    (stringLengthRegisterTemplateText texts)
         else Parse "string_stack_length_header"
                    (stringLengthStackTemplateText texts)) with
  | inr err => (buf, Some err)
  | inl tmplte => ExecuteTo tmplte buf (DataParameter stringLengthParamPiece)
  end.

Definition generateSliceLengthHeader (sliceLengthParamPiece : Param)
  (buf : Buffer) : Buffer * option error :=
  match (if InReg (Loc sliceLengthParamPiece)
         then Parse "slice_register_length_header"
                    (sliceLengthRegisterTemplateText texts)
         else Parse "slice_stack_length_header"
                    (sliceLengthStackTemplateText texts)) with
  | inr err => (buf, Some err)
  | inl tmplte => ExecuteTo tmplte buf (DataParameter sliceLengthParamPiece)
  end.

(** The argument is a Go pointer: [None] is [nil].  The test
    [len(ParameterPieces) != 2] followed by the reads of pieces 0 and 1 is
    the match on a two-element list. *)
Definition generateStringHeader (stringParam : option Param) (out : Buffer)
  : Buffer * option error :=
  match stringParam with
  | None =>
      (out, Some (errors.New "nil string parameter when generating header code"))
  | Some stringParam =>
      match ParameterPieces stringParam with
      | [_; piece1] =>
          let (buf, err) := generateStringLengthHeader piece1 "" in
          match err with
          | Some e => (out, Some e)
          | None =>
              let w := mkStringHeaderWrapper stringParam buf in
              match resolveHeaderTemplate stringParam with
              | inr e => (out, Some e)
              | inl stringTemplate =>
                  let (out', err) :=
                    ExecuteTo stringTemplate out (DataStringHeader w) in
                  match err with
                  | Some e =>
                      (out', Some (wrapError
                         "could not execute template for generating string header: " e))
                  | None => (out', None)
                  end
              end
          end
      | pieces =>
          (out, Some (errorString
             ("invalid string parameter when generating header code (pieces len "
              ++ fmt_d (List.length pieces) ++ ")")))
      end
  end.

(** [generateSliceHeader] calls back into [generateHeaderText] for the
    element type; the body is written over that call so that the recursion
    of [generateHeaderText] is structural on the parameter tree. *)
Definition generateSliceHeader_with
  (generateHeaderText : Param -> Buffer -> Buffer * option error)
  (slice : option Param) (out : Buffer) : Buffer * option error :=
  match slice with
  | None =>
      (out, Some (errors.New "nil slice parameter when generating header code"))
  | Some slice =>
      match ParameterPieces slice with
      | [piece0; piece1] =>
          let (typeHeaderBuf, err) := generateHeaderText piece0 "" in
          match err with
          | Some e => (out, Some e)
          | None =>
              let (lengthHeaderBuf, err) := generateSliceLengthHeader piece1 "" in
              match err with
              | Some e => (out, Some e)
              | None =>
                  let w := mkSliceHeaderWrapper slice lengthHeaderBuf typeHeaderBuf in
                  match resolveHeaderTemplate slice with
                  | inr e => (out, Some e)
                  | inl sliceTemplate =>
                      let (out', err) :=
                        ExecuteTo sliceTemplate out (DataSliceHeader w) in
                      match err with
                      | Some e =>
                          (out', Some (wrapError
                             "could not execute template for generating slice header: " e))
                      | None => (out', None)
                      end
                  end
              end
          end
      | _ =>
          (out, Some (errors.New "invalid slice parameter when generating header code"))
      end
  end.

Fixpoint generateHeaderText (param : Param) (out : Buffer) {struct param}
  : Buffer * option error :=
  if (Kind param =? reflect.Slice)%N then
    generateSliceHeader_with generateHeaderText (Some param) out
  else if (Kind param =? reflect.String)%N then
    generateStringHeader (Some param) out
  else
    match resolveHeaderTemplate param with
    | inr err => (out, Some err)
    | inl tmplt =>
        let (out1, err) := ExecuteTo tmplt out (DataParameter param) in
        match err with
        | Some e => (out1, Some e)
        | None =>
            if negb (List.length (ParameterPieces param) =? 0)%nat then
              (fix generateHeadersText (params : list Param) (out : Buffer)
                 : Buffer * option error :=
                 match params with
                 | [] => (out, None)
                 | p :: rest =>
                     let (out', err) := generateHeaderText p out in
                     match err with
                     | Some e => (out', Some e)
                     | None => generateHeadersText rest out'
                     end
                 end) (ParameterPieces param) out1
            else (out1, None)
        end
    end.

Fixpoint generateHeadersText (params : list Param) (out : Buffer)
  : Buffer * option error :=
  match params with
  | [] => (out, None)
  | p :: rest =>
      let (out', err) := generateHeaderText p out in
      match err with
      | Some e => (out', Some e)
      | None => generateHeadersText rest out'
      end
  end.

Definition generateSliceHeader (slice : option Param) (out : Buffer)
  : Buffer * option error :=
  generateSliceHeader_with generateHeaderText slice out.

(** *** Body generation *)

Definition resolveRegisterParameterTemplate (param : Param) : Template + error :=
  let needsDereference := NeedsDereference (Loc param) in
  let stringType := (Kind param =? reflect.String)%N in
  let sliceType := (Kind param =? reflect.Slice)%N in
  if needsDereference then
    Parse "pointer_register_template" (pointerRegisterTemplateText texts)
  else if stringType then
    Parse "string_register_template" (stringRegisterTemplateText texts)
  else if sliceType then
    Parse "slice_register_template" (sliceRegisterTemplateText texts)
  else if negb needsDereference then
    Parse "register_template" (normalValueRegisterTemplateText texts)
  else inr (errors.New "no template created: invalid or unsupported type").

Definition resolveStackParameterTemplate (param : Param) : Template + error :=
  let needsDereference := NeedsDereference (Loc param) in
  let stringType := (Kind param =? reflect.String)%N in
  let sliceType := (Kind param =? reflect.Slice)%N in
  if needsDereference then
    Parse "pointer_stack_template" (pointerStackTemplateText texts)
  else if stringType then
    Parse "string_stack_template" (stringStackTemplateText texts)
  else if sliceType then
    Parse "slice_stack_template" (sliceStackTemplateText texts)
  else if negb needsDereference then
    Parse "stack_template" (normalValueStackTemplateText texts)
  else inr (errors.New "no template created: invalid or unsupported type").

Definition resolveParameterTemplate (param : Param) : Template + error :=
  let notSupported := NotCaptureReason_eqb (Reason param) Unsupported in
  let cutForFieldLimit := NotCaptureReason_eqb (Reason param) FieldLimitReached in
  if notSupported then
    Parse "unsupported_type_template" (unsupportedTypeTemplateText texts)
  else if cutForFieldLimit then
    Parse "cut_field_limit_template" (cutForFieldLimitTemplateText texts)
  else if InReg (Loc param) then resolveRegisterParameterTemplate param
  else resolveStackParameterTemplate param.

(** The parameter is passed by pointer and its [Type] is overwritten before
    the template runs: the parameter after the call is part of the result. *)
Definition generateParameterText (param : Param) (out : Buffer)
  : Param * Buffer * option error :=
  if (Kind param =? reflect.Array)%N
     || (Kind param =? reflect.Struct)%N
     || (Kind param =? reflect.Pointer)%N then
    (param, out, None)
  else
    match resolveParameterTemplate param with
    | inr err => (param, out, Some err)
    | inl template =>
        let param := set_Type param (cleanupTypeName (Type_ param)) in
        let (out', err) := ExecuteTo template out (DataParameter param) in
        match err with
        | Some e =>
            (param, out',
             Some (wrapError
               "could not execute template for generating read of parameter: " e))
        | None => (param, out', None)
        end
    end.

Fixpoint generateParametersText (params : list Param) (out : Buffer)
  : list Param * Buffer * option error :=
  match params with
  | [] => ([], out, None)
  | p :: rest =>
      let '(p', out', err) := generateParameterText p out in
      match err with
      | Some e => (p' :: rest, out', Some e)
      | None =>
          let '(rest', out'', err') := generateParametersText rest out' in
          (p' :: rest', out'', err')
      end
  end.

(** *** The entry point *)

(** One round of the loop of [GenerateBPFParamsCode] over the top-level
    parameters: headers, then bodies, of the flattening of [params[i]]. *)
Definition generateTopLevel (param : Param) (out : Buffer)
  : Buffer * option error :=
  let flattenedParams := flattenParameters [param] in
  let (out1, err) := generateHeadersText flattenedParams out in
  match err with
  | Some e => (out1, Some e)
  | None =>
      let '(_, out2, err) := generateParametersText flattenedParams out1 in
      (out2, err)
  end.

Fixpoint generateAllTopLevel (params : list Param) (out : Buffer)
  : Buffer * option error :=
  match params with
  | [] => (out, None)
  | p :: rest =>
      let (out', err) := generateTopLevel p out in
      match err with
      | Some e => (out', Some e)
      | None => generateAllTopLevel rest out'
      end
  end.

(** The probe is passed by pointer and the log is global: the call takes the
    probe and the log so far and returns both after it, with its error. *)
Definition GenerateBPFParamsCode (procInfo : ProcessInfo) (probe : Probe)
  (logged : list LogEntry) : Probe * list LogEntry * option error :=
  let out := "" in
  let options := InstrumentationOptions_ (InstrumentationInfo_ probe) in
  if CaptureParameters options then
    let params :=
      applyCaptureDepth
        (map_index (Functions (TypeMap_ procInfo)) (FuncName probe))
        (MaxReferenceDepth options) in
    let params := applyFieldCountLimit params in
    let (out, err) := generateAllTopLevel params out in
    match err with
    | Some e => (probe, logged, Some e)
    | None => (set_BPFParametersSourceCode probe out, logged, None)
    end
  else
    let logged := log.Info "Not capturing parameters" logged in
    (set_BPFParametersSourceCode probe out, logged, None).

End Codegen.

Arguments GenerateBPFParamsCode {engine} texts applyCaptureDepth
  applyFieldCountLimit flattenParameters procInfo probe logged.
Arguments generateTopLevel {engine} texts flattenParameters param out.
Arguments generateAllTopLevel {engine} texts flattenParameters params out.

(** The kinds whose body generation is skipped. *)
Definition containerKind (k : N) : bool :=
  (k =? reflect.Array)%N || (k =? reflect.Struct)%N || (k =? reflect.Pointer)%N.

(** The prefixes [fmt.Errorf] puts before a wrapped template error. *)
Definition wrapRead (e : option error) : option error :=
  option_map
    (wrapError "could not execute template for generating read of parameter: ") e.

Definition wrapSliceHeader (e : option error) : option error :=
  option_map
    (wrapError "could not execute template for generating slice header: ") e.

(** The two errors for a string or slice without exactly two pieces. *)
Definition malformedError (param : Param) : error :=
  if (Kind param =? reflect.Slice)%N
  then errors.New "invalid slice parameter when generating header code"
  else errorString
         ("invalid string parameter when generating header code (pieces len "
          ++ fmt_d (List.length (ParameterPieces param)) ++ ")").

(** The error of the last branch of the two body-template resolvers. *)
Definition noTemplateError : error :=
  errors.New "no template created: invalid or unsupported type".

(** The closed shape tag of the design, read on [reflect] kinds: the
    booleans and numbers (kinds 1 to 16) are primitives, strings, slices,
    arrays, structs and pointers are the five other shapes, and every other
    kind (invalid, channel, function, interface, map, unsafe pointer) has
    no shape. *)
Inductive Shape : Type :=
| PrimitiveShape
| StringShape
| SliceShape
| ArrayShape
| StructShape
| PointerShape.

Definition shapeOfKind (k : N) : option Shape :=
  if (k =? reflect.String)%N then Some StringShape
  else if (k =? reflect.Slice)%N then Some SliceShape
  else if (k =? reflect.Array)%N then Some ArrayShape
  else if (k =? reflect.Struct)%N then Some StructShape
  else if (k =? reflect.Pointer)%N then Some PointerShape
  else if (1 <=? k)%N && (k <=? 16)%N then Some PrimitiveShape
  else None.

(** The body-template matrix: the guards of the resolvers, in order, with
    the template each selects. *)
Record MatrixRow : Type := mkMatrixRow {
  rowCovers : Param -> bool;
  rowName : string;
  rowText : string
}.

Definition registerMatrix (texts : TemplateTexts) : list MatrixRow :=
  [ mkMatrixRow (fun p => NeedsDereference (Loc p))
      "pointer_register_template" (pointerRegisterTemplateText texts);
    mkMatrixRow (fun p => (Kind p =? reflect.String)%N)
      "string_register_template" (stringRegisterTemplateText texts);
    mkMatrixRow (fun p => (Kind p =? reflect.Slice)%N)
      "slice_register_template" (sliceRegisterTemplateText texts);
    mkMatrixRow (fun p => negb (NeedsDereference (Loc p)))
      "register_template" (normalValueRegisterTemplateText texts) ].

Definition stackMatrix (texts : TemplateTexts) : list MatrixRow :=
  [ mkMatrixRow (fun p => NeedsDereference (Loc p))
      "pointer_stack_template" (pointerStackTemplateText texts);
    mkMatrixRow (fun p => (Kind p =? reflect.String)%N)
      "string_stack_template" (stringStackTemplateText texts);
    mkMatrixRow (fun p => (Kind p =? reflect.Slice)%N)
      "slice_stack_template" (sliceStackTemplateText texts);
    mkMatrixRow (fun p => negb (NeedsDereference (Loc p)))
      "stack_template" (normalValueStackTemplateText texts) ].

Definition bodyMatrix (texts : TemplateTexts) (param : Param) : list MatrixRow :=
  if InReg (Loc param) then registerMatrix texts else stackMatrix texts.

(** A generator is append-only when running it on a buffer is running it on
    the empty buffer and appending what it wrote; its error does not depend
    on the buffer. *)
Definition appendOnly (f : Buffer -> Buffer * option error) : Prop :=
  forall out, f out = (out ++ fst (f ""), snd (f "")).

(** The parts of a string or slice header all render: the parameter has
    two pieces, its outer header template parses, the length header of the
    second piece and, for a slice, the header of the first piece are
    generated without error, and the outer template executes without error
    on the wrapper that holds them. *)
Definition headerPartsRender {engine : TemplateEngine} (texts : TemplateTexts)
  (p : Param) : Prop :=
  exists piece0 piece1 lengthText t,
    ParameterPieces p = [piece0; piece1]
    /\ resolveHeaderTemplate texts p = inl t
    /\ if (Kind p =? reflect.Slice)%N then
         exists typeText,
           generateHeaderText texts piece0 "" = (typeText, None)
           /\ generateSliceLengthHeader texts piece1 "" = (lengthText, None)
           /\ snd (Execute t (DataSliceHeader
                     (mkSliceHeaderWrapper p lengthText typeText))) = None
       else
         generateStringLengthHeader texts piece1 "" = (lengthText, None)
         /\ snd (Execute t (DataStringHeader
                   (mkStringHeaderWrapper p lengthText))) = None.

Definition wrapStringHeader (e : option error) : option error :=
  option_map
    (wrapError "could not execute template for generating string header: ") e.

(** The kinds the body generator reads. *)
Definition readKind (p : Param) : bool := negb (containerKind (Kind p)).

(** The trees the header generator can walk without meeting a malformed
    node: a slice has two pieces and its element is such a tree, a string
    has two pieces, and every piece of any other parameter is such a tree.
    The second piece of a slice and the pieces of a string are not walked. *)
Fixpoint headerWellFormed (p : Param) : bool :=
  match p with
  | mkParameter _ _ kind _ _ pieces =>
      if (kind =? reflect.Slice)%N then
        match pieces with
        | [piece0; _] => headerWellFormed piece0
        | _ => false
        end
      else if (kind =? reflect.String)%N then
        (List.length pieces =? 2)%nat
      else forallb headerWellFormed pieces
  end.

(** The header templates of the package, by name and text, listed by the
    data the header generator executes them on: a parameter, the wrapper of
    a slice header, the wrapper of a string header. *)
Definition headerParameterTemplates (texts : TemplateTexts)
  : list (string * string) :=
  [ ("header_template", headerTemplateText texts);
    ("string_register_length_header", stringLengthRegisterTemplateText texts);
    ("string_stack_length_header", stringLengthStackTemplateText texts);
    ("slice_register_length_header", sliceLengthRegisterTemplateText texts);
    ("slice_stack_length_header", sliceLengthStackTemplateText texts) ].

Definition sliceHeaderTemplates (texts : TemplateTexts)
  : list (string * string) :=
  [ ("slice_reg_header_template", sliceRegisterHeaderTemplateText texts);
    ("slice_stack_header_template", sliceStackHeaderTemplateText texts) ].

Definition stringHeaderTemplates (texts : TemplateTexts)
  : list (string * string) :=
  [ ("string_reg_header_template", stringRegisterHeaderTemplateText texts);
    ("string_stack_header_template", stringStackHeaderTemplateText texts) ].

(** The body templates of the package; all are executed on a parameter. *)
Definition bodyTemplates (texts : TemplateTexts) : list (string * string) :=
  [ ("unsupported_type_template", unsupportedTypeTemplateText texts);
    ("cut_field_limit_template", cutForFieldLimitTemplateText texts);
    ("pointer_register_template", pointerRegisterTemplateText texts);
    ("string_register_template", stringRegisterTemplateText texts);
    ("slice_register_template", sliceRegisterTemplateText texts);
    ("register_template", normalValueRegisterTemplateText texts);
    ("pointer_stack_template", pointerStackTemplateText texts);
    ("string_stack_template", stringStackTemplateText texts);
    ("slice_stack_template", sliceStackTemplateText texts);
    ("stack_template", normalValueStackTemplateText texts) ].

(** The header templates of the package parse, and execute without error
    on the kind of data the header generator gives each of them.  Nothing
    is asked of other texts nor of a template on data it is never given. *)
Definition headerTemplatesRender {engine : TemplateEngine}
  (texts : TemplateTexts) : Prop :=
  (forall name text, In (name, text) (headerParameterTemplates texts) ->
     exists t, Parse name text = inl t
               /\ forall p, snd (Execute t (DataParameter p)) = None)
  /\ (forall name text, In (name, text) (sliceHeaderTemplates texts) ->
     exists t, Parse name text = inl t
               /\ forall w, snd (Execute t (DataSliceHeader w)) = None)
  /\ (forall name text, In (name, text) (stringHeaderTemplates texts) ->
     exists t, Parse name text = inl t
               /\ forall w, snd (Execute t (DataStringHeader w)) = None).

(** The body templates of the package parse, and execute without error on
    parameters. *)
Definition bodyTemplatesRender {engine : TemplateEngine}
  (texts : TemplateTexts) : Prop :=
  forall name text, In (name, text) (bodyTemplates texts) ->
    exists t, Parse name text = inl t
              /\ forall p, snd (Execute t (DataParameter p)) = None.

(** What body generation leaves in the place of a parameter it has read:
    the parameter with its type label cleaned, or the parameter itself for
    the skipped kinds. *)
Definition afterRead (p : Param) : Param :=
  if containerKind (Kind p) then p
  else set_Type p (cleanupTypeName (Type_ p)).

(** ** A concrete engine for evaluating the generators *)

Module Example.

(** A template is its name and its text.  Parsing keeps both; executing
    writes the text followed by the fields of the data. *)
Definition render (data : TemplateData) : string :=
  match data with
  | DataParameter p => "(" ++ Type_ p ++ " " ++ Name p ++ ")"
  | DataSliceHeader w =>
      "(" ++ Name (slice_Parameter w) ++ " of " ++ SliceTypeHeaderText w
          ++ " len " ++ SliceLengthText w ++ ")"
  | DataStringHeader w =>
      "(" ++ Name (string_Parameter w) ++ " len " ++ StringLengthText w ++ ")"
  end.

#[export] Instance engine : TemplateEngine := {|
  Template := string * string;
  Parse := fun name text => inl (name, text);
  Execute := fun t data => (snd t ++ render data, None)
|}.

Definition texts : TemplateTexts := {|
  headerTemplateText := "header";
  stringRegisterHeaderTemplateText := "string_reg_header";
  stringStackHeaderTemplateText := "string_stack_header";
  sliceRegisterHeaderTemplateText := "slice_reg_header";
  sliceStackHeaderTemplateText := "slice_stack_header";
  stringLengthRegisterTemplateText := "string_reg_len";
  stringLengthStackTemplateText := "string_stack_len";
  sliceLengthRegisterTemplateText := "slice_reg_len";
  sliceLengthStackTemplateText := "slice_stack_len";
  unsupportedTypeTemplateText := "unsupported";
  cutForFieldLimitTemplateText := "cut";
  pointerRegisterTemplateText := "pointer_reg";
  pointerStackTemplateText := "pointer_stack";
  stringRegisterTemplateText := "string_reg";
  stringStackTemplateText := "string_stack";
  sliceRegisterTemplateText := "slice_reg";
  sliceStackTemplateText := "slice_stack";
  normalValueRegisterTemplateText := "value_reg";
  normalValueStackTemplateText := "value_stack"
|}.

(** Instances of the limiter passes and the flattener that leave the
    parameters as they are. *)
Definition applyCaptureDepth (params : list Param) (depth : nat) : list Param :=
  params.
Definition applyFieldCountLimit (params : list Param) : list Param := params.
Definition flattenParameters (params : list Param) : list Param := params.

Definition inRegister : Location := mkLocation true false.
Definition onStack : Location := mkLocation false false.
Definition behindPointer : Location := mkLocation true true.

Definition intParam (name : string) : Param :=
  mkParameter name "int" reflect.Int inRegister NoReason [].

(** A struct the limiter has vetoed. *)
Definition vetoedStruct : Param :=
  mkParameter "w" "Widget" reflect.Struct inRegister Unsupported
    [intParam "a"; intParam "b"].

(** A primitive the limiter has vetoed. *)
Definition vetoedInt : Param :=
  mkParameter "n" "int" reflect.Int onStack FieldLimitReached [].

(** A well-formed string: data piece and length piece. *)
Definition goodString : Param :=
  mkParameter "s" "string" reflect.String inRegister NoReason
    [mkParameter "data" "*uint8" reflect.Pointer inRegister NoReason [];
     intParam "len"].

(** A string with no pieces. *)
Definition emptyString (name : string) : Param :=
  mkParameter name "string" reflect.String inRegister NoReason [].

(** A slice with three pieces. *)
Definition badSlice (name : string) : Param :=
  mkParameter name "[]int" reflect.Slice inRegister NoReason
    [intParam "elem"; intParam "len"; intParam "cap"].

(** A slice of ints, and a slice with two pieces whose element is a string
    without pieces. *)
Definition goodSlice : Param :=
  mkParameter "xs" "[]int" reflect.Slice onStack NoReason
    [intParam "elem"; intParam "len"].

Definition sliceOfEmptyString : Param :=
  mkParameter "ss" "[]string" reflect.Slice inRegister NoReason
    [emptyString "elem"; intParam "len"].

Definition pointerTyped : Param :=
  mkParameter "p" "*Widget" reflect.Int behindPointer NoReason [].

(** A map, which is none of the shapes. *)
Definition mapTyped : Param :=
  mkParameter "m" "map[string]int" reflect.Map inRegister NoReason [].

Definition options (capture : bool) : InstrumentationOptions :=
  mkInstrumentationOptions capture 3.

Definition probe (capture : bool) : Probe :=
  mkProbe "main.f" (mkInstrumentationInfo (options capture) "previous text").

Definition procInfo (params : list Param) : ProcessInfo :=
  mkProcessInfo (mkTypeMap [("main.f", params)]).

Definition run (params : list Param) (capture : bool)
  : Probe * list LogEntry * option error :=
  GenerateBPFParamsCode texts applyCaptureDepth applyFieldCountLimit
    flattenParameters (procInfo params) (probe capture) [].

End Example.

(** * The system-probe client

    The client of [pkg/process/net] asks a local system-probe service over
    HTTP.  The service is outside the program: building a request, sending
    it and decoding a payload are operations of a [Transport] and of an
    [Encoding], and what a response body yields when it is read to its end
    is a field of the response.  Growing a buffer can panic, so a call
    has an [Outcome]: it returns its results or panics.  Closing a body and
    cancelling a context have no result and are left out. *)

Module net.

(** The [%d] verb of [fmt] on an integer. *)
Definition fmt_dZ (z : Z) : string := NilEmpty.string_of_int (Z.to_int z).

(** [string(body)]. *)
Definition string_of_bytes (body : list byte) : string :=
  string_of_list_byte body.

(** An [int64] holds its value wrapped around into [-2^63, 2^63). *)
Definition wrap64 (z : Z) : Z := ((z + 2 ^ 63) mod 2 ^ 64 - 2 ^ 63)%Z.

Module time.
(** A [time.Duration] is an [int64] of nanoseconds. *)
Definition Second : Z := 1000000000%Z.
End time.

Module http.
Definition StatusOK : Z := 200%Z.
Definition StatusBadRequest : Z := 400%Z.
End http.

Definition contentTypeProtobuf : string := "application/protobuf".
Definition contentTypeJSON : string := "application/json".

(** An [http.Response], with the fields the client reads.  [Header_Get] is
    [resp.Header.Get]; [Body] is what reading the body to its end yields:
    the bytes read, and the error that stopped the reading if it was not
    the end of the body. *)
Record Response : Type := mkResponse {
  StatusCode : Z;
  ContentLength : Z;
  Header_Get : string -> string;
  Body : list byte * option error
}.

(** [net/http] and [context]: a request is built from a method, a URL and
    an optional body, with, for [NewRequestWithContext], the timeout of its
    context; a header can be set on it; a client sends it. *)
Class Transport : Type := {
  Request : Type;
  Client : Type;
  NewRequest : string -> string -> option (list byte) -> Request + error;
  NewRequestWithContext :
    Z -> string -> string -> option (list byte) -> Request + error;
  Header_Set : Request -> string -> string -> Request;
  Do : Client -> Request -> Response + error;
  Client_Get : Client -> string -> Response + error
}.

(** The encoders of the payloads, which live in other packages:
    [GetMarshaler(...).Marshal] of a request for process statistics, and
    [GetUnmarshaler(contentType).Unmarshal] of the two kinds of result.
    Each gives a value or an error. *)
Class Encoding : Type := {
  Connections : Type;
  ProcStatsWithPermByPID : Type;
  MarshalProcessStatRequest : list Z -> list byte + error;
  UnmarshalConnections : string -> list byte -> Connections + error;
  UnmarshalProcStats : string -> list byte -> ProcStatsWithPermByPID + error
}.

(** The URLs of the service, constants of the file of each platform, and
    the content type constant of the process encoding package. *)
Record Endpoints : Type := {
  connectionsURL : string;
  networkIDURL : string;
  registerURL : string;
  statsURL : string;
  tracerouteURL : string;
  procStatsURL : string;
  pingURL : string;
  procEncoding_ContentTypeProtobuf : string
}.

(** A call returns its results or panics with a value. *)
Inductive Outcome (A : Type) : Type :=
| Returns (results : A)
| Panics (value : error).

Arguments Returns {A} results.
Arguments Panics {A} value.

Module bytes.
Definition ErrTooLarge : error := errors.New "bytes.Buffer: too large".
End bytes.

(** The memory of the process: [Buffer_Grow n] is [None] when
    [buf.Grow(int(n))] on a fresh [bytes.Buffer] returns, and the value it
    panics with when it does not ([bytes.ErrTooLarge] when the buffer
    cannot be allocated). *)
Class Runtime : Type := {
  Buffer_Grow : Z -> option error
}.

(** [io.ReadAll] returns what it read together with the error; with a
    known length the buffer is grown first, which can panic, and after
    [buf.ReadFrom] the bytes read are returned only without an error. *)
Definition readAllResponseBody {runtime : Runtime} (resp : Response)
  : Outcome (list byte * option error) :=
  if (ContentLength resp <=? 0)%Z then Returns (Body resp)
  else
    match Buffer_Grow (ContentLength resp) with
    | Some value => Panics value
    | None =>
        let (data, err) := Body resp in
        match err with
        | Some e => Returns ([], Some e)
        | None => Returns (data, None)
        end
    end.

(** The timeout of the request of [GetTraceroute]. *)
Definition httpTimeout (timeout maxTTL : Z) : Z :=
  wrap64 (wrap64 (timeout * maxTTL) + 10 * time.Second).

Section Client.

Context {transport : Transport} {encoding : Encoding} {runtime : Runtime}.
Variable urls : Endpoints.

(** [DurationString] is the [String] method of [time.Duration], used by the
    trace line of [GetTraceroute]. *)
Variable DurationString : Z -> string.

Record RemoteSysProbeUtil : Type := mkRemoteSysProbeUtil {
  path : string;
  httpClient : Client;
  tracerouteClient : Client
}.

Definition GetProcStats (r : RemoteSysProbeUtil) (pids : list Z)
  : Outcome (option ProcStatsWithPermByPID * option error) :=
  match MarshalProcessStatRequest pids with
  | inr err => Returns (None, Some err)
  | inl reqBody =>
      match NewRequest "POST" (procStatsURL urls) (Some reqBody) with
      | inr err => Returns (None, Some err)
      | inl req =>
          let req := Header_Set req "Accept" contentTypeProtobuf in
          let req := Header_Set req "Content-Type"
                       (procEncoding_ContentTypeProtobuf urls) in
          match Do (httpClient r) req with
          | inr err => Returns (None, Some err)
          | inl resp =>
              if negb (StatusCode resp =? http.StatusOK)%Z then
                Returns (None, Some (errorString
                   ("proc_stats request failed: Probe Path " ++ path r
                    ++ ", url: " ++ procStatsURL urls
                    ++ ", status code: " ++ fmt_dZ (StatusCode resp))))
              else
                match readAllResponseBody resp with
                | Panics value => Panics value
                | Returns (body, err) =>
                    match err with
                    | Some e => Returns (None, Some e)
                    | None =>
                        let contentType := Header_Get resp "Content-type" in
                        match UnmarshalProcStats contentType body with
                        | inr e => Returns (None, Some e)
                        | inl results => Returns (Some results, None)
                        end
                    end
                end
          end
      end
  end.

Definition GetConnections (r : RemoteSysProbeUtil) (clientID : string)
  : Outcome (option Connections * option error) :=
  match NewRequest "GET" (connectionsURL urls ++ "?client_id=" ++ clientID)
                   None with
  | inr err => Returns (None, Some err)
  | inl req =>
      let req := Header_Set req "Accept" contentTypeProtobuf in
      match Do (httpClient r) req with
      | inr err => Returns (None, Some err)
      | inl resp =>
          if negb (StatusCode resp =? http.StatusOK)%Z then
            Returns (None, Some (errorString
               ("conn request failed: Probe Path " ++ path r
                ++ ", url: " ++ connectionsURL urls
                ++ ", status code: " ++ fmt_dZ (StatusCode resp))))
          else
            match readAllResponseBody resp with
            | Panics value => Panics value
            | Returns (body, err) =>
                match err with
                | Some e => Returns (None, Some e)
                | None =>
                    let contentType := Header_Get resp "Content-type" in
                    match UnmarshalConnections contentType body with
                    | inr e => Returns (None, Some e)
                    | inl conns => Returns (Some conns, None)
                    end
                end
            end
      end
  end.

Definition GetNetworkID (r : RemoteSysProbeUtil)
  : Outcome (string * option error) :=
  match NewRequest "GET" (networkIDURL urls) None with
  | inr err => Returns ("", Some (wrapError "failed to create request: " err))
  | inl req =>
      let req := Header_Set req "Accept" "text/plain" in
      match Do (httpClient r) req with
      | inr err =>
          Returns ("", Some (wrapError "failed to execute request: " err))
      | inl resp =>
          if negb (StatusCode resp =? http.StatusOK)%Z then
            Returns ("", Some (errorString
               ("network_id request failed: url: " ++ networkIDURL urls
                ++ ", status code: " ++ fmt_dZ (StatusCode resp))))
          else
            match readAllResponseBody resp with
            | Panics value => Panics value
            | Returns (body, err) =>
                match err with
                | Some e =>
                    Returns ("", Some (wrapError
                                         "failed to read response body: " e))
                | None => Returns (string_of_bytes body, None)
                end
            end
      end
  end.

Definition GetPing (r : RemoteSysProbeUtil) (clientID host : string)
  (count interval timeout : Z) : Outcome (list byte * option error) :=
  match NewRequest "GET"
          (pingURL urls ++ "/" ++ host ++ "?client_id=" ++ clientID
           ++ "&count=" ++ fmt_dZ count ++ "&interval=" ++ fmt_dZ interval
           ++ "&timeout=" ++ fmt_dZ timeout) None with
  | inr err => Returns ([], Some err)
  | inl req =>
      let req := Header_Set req "Accept" contentTypeJSON in
      match Do (httpClient r) req with
      | inr err => Returns ([], Some err)
      | inl resp =>
          if (StatusCode resp =? http.StatusBadRequest)%Z then
            match readAllResponseBody resp with
            | Panics value => Panics value
            | Returns (body, err) =>
                match err with
                | Some _ =>
                    Returns ([], Some (errorString
                       ("ping request failed: Probe Path " ++ path r
                        ++ ", url: " ++ pingURL urls
                        ++ ", status code: " ++ fmt_dZ (StatusCode resp))))
                | None =>
                    Returns ([], Some (errorString
                       ("ping request failed: Probe Path " ++ path r
                        ++ ", url: " ++ pingURL urls
                        ++ ", status code: " ++ fmt_dZ (StatusCode resp)
                        ++ ", error: " ++ string_of_bytes body)))
                end
            end
          else if negb (StatusCode resp =? http.StatusOK)%Z then
            Returns ([], Some (errorString
               ("ping request failed: Probe Path " ++ path r
                ++ ", url: " ++ pingURL urls
                ++ ", status code: " ++ fmt_dZ (StatusCode resp))))
          else
            match readAllResponseBody resp with
            | Panics value => Panics value
            | Returns (body, err) =>
                match err with
                | Some e => Returns ([], Some e)
                | None => Returns (body, None)
                end
            end
      end
  end.

(** [port] is a [uint16], [maxTTL] a [uint8], [protocol] a string type and
    [timeout] a [time.Duration].  The trace line is logged before the
    request is built, so it is there also when the call panics. *)
Definition GetTraceroute (r : RemoteSysProbeUtil) (clientID host : string)
  (port : Z) (protocol : string) (maxTTL timeout : Z) (logged : list LogEntry)
  : Outcome (list byte * option error) * list LogEntry :=
  let httpTimeout := httpTimeout timeout maxTTL in
  let logged :=
    (logged ++ [mkLogEntry TraceLvl
       ("Network Path traceroute HTTP request timeout: "
        ++ DurationString httpTimeout)])%list in
  match NewRequestWithContext httpTimeout "GET"
          (tracerouteURL urls ++ "/" ++ host ++ "?client_id=" ++ clientID
           ++ "&port=" ++ fmt_dZ port ++ "&max_ttl=" ++ fmt_dZ maxTTL
           ++ "&timeout=" ++ fmt_dZ timeout ++ "&protocol=" ++ protocol)
          None with
  | inr err => (Returns ([], Some err), logged)
  | inl req =>
      let req := Header_Set req "Accept" contentTypeJSON in
      match Do (tracerouteClient r) req with
      | inr err => (Returns ([], Some err), logged)
      | inl resp =>
          (if (StatusCode resp =? http.StatusBadRequest)%Z then
             match readAllResponseBody resp with
             | Panics value => Panics value
             | Returns (body, err) =>
                 match err with
                 | Some _ =>
                     Returns ([], Some (errorString
                        ("traceroute request failed: Probe Path " ++ path r
                         ++ ", url: " ++ tracerouteURL urls
                         ++ ", status code: " ++ fmt_dZ (StatusCode resp))))
                 | None =>
                     Returns ([], Some (errorString
                        ("traceroute request failed: Probe Path " ++ path r
                         ++ ", url: " ++ tracerouteURL urls
                         ++ ", status code: " ++ fmt_dZ (StatusCode resp)
                         ++ ", error: " ++ string_of_bytes body)))
                 end
             end
           else if negb (StatusCode resp =? http.StatusOK)%Z then
             Returns ([], Some (errorString
                ("traceroute request failed: Probe Path " ++ path r
                 ++ ", url: " ++ tracerouteURL urls
                 ++ ", status code: " ++ fmt_dZ (StatusCode resp))))
           else
             match readAllResponseBody resp with
             | Panics value => Panics value
             | Returns (body, err) =>
                 match err with
                 | Some e => Returns ([], Some e)
                 | None => Returns (body, None)
                 end
             end,
           logged)
      end
  end.

Definition Register (r : RemoteSysProbeUtil) (clientID : string)
  : option error :=
  match NewRequest "GET" (registerURL urls ++ "?client_id=" ++ clientID)
                   None with
  | inr err => Some err
  | inl req =>
      match Do (httpClient r) req with
      | inr err => Some err
      | inl resp =>
          if negb (StatusCode resp =? http.StatusOK)%Z then
            Some (errorString
              ("conn request failed: Path " ++ path r ++ ", url: "
               ++ statsURL urls ++ ", status code: "
               ++ fmt_dZ (StatusCode resp)))
          else None
      end
  end.

Definition init (r : RemoteSysProbeUtil) : option error :=
  match Client_Get (httpClient r) (statsURL urls) with
  | inr err => Some err
  | inl resp =>
      if negb (StatusCode resp =? http.StatusOK)%Z then
        Some (errorString
          ("remote tracer status check failed: socket " ++ path r
           ++ ", url: " ++ statsURL urls ++ ", status code: "
           ++ fmt_dZ (StatusCode resp)))
      else None
  end.

End Client.

End net.

(** ** A concrete service for evaluating the client *)

Module netExample.

Import net.

(** A request is its URL and a client is the service behind it: a function
    from URLs to answers.  An empty URL cannot be made into a request. *)
#[export] Instance transport : Transport := {|
  Request := string;
  Client := string -> Response + error;
  NewRequest := fun method url body =>
    if String.eqb url "" then inr (errorString "empty url") else inl url;
  NewRequestWithContext := fun timeout method url body =>
    if String.eqb url "" then inr (errorString "empty url") else inl url;
  Header_Set := fun req key value => req;
  Do := fun client req => client req;
  Client_Get := fun client url => client url
|}.

(** Payloads are kept as the bytes received. *)
#[export] Instance encoding : Encoding := {|
  Connections := list byte;
  ProcStatsWithPermByPID := list byte;
  MarshalProcessStatRequest := fun pids => inl [];
  UnmarshalConnections := fun contentType body => inl body;
  UnmarshalProcStats := fun contentType body => inl body
|}.

(** A process that can grow a buffer to a gigabyte and no further. *)
#[export] Instance runtime : Runtime := {|
  Buffer_Grow := fun n =>
    if (n <=? 1073741824)%Z then None else Some bytes.ErrTooLarge
|}.

Definition urls : Endpoints := {|
  connectionsURL := "http://localhost:3333/network_tracer/connections";
  networkIDURL := "http://unix/network_tracer/network_id";
  registerURL := "http://localhost:3333/network_tracer/register";
  statsURL := "http://localhost:3333/debug/stats";
  tracerouteURL := "http://localhost:3333/traceroute/traceroute/";
  procStatsURL := "http://localhost:3333/process/stats";
  pingURL := "http://localhost:3333/ping/ping/";
  procEncoding_ContentTypeProtobuf := "application/protobuf"
|}.

Definition DurationString (d : Z) : string := fmt_dZ d ++ "ns".

Definition hello : list byte := list_byte_of_string "hello".

(** An answer with a status and a body that reads to its end. *)
Definition answer (code : Z) (body : list byte) : Response :=
  mkResponse code (Z.of_nat (List.length body)) (fun _ => "application/json")
             (body, None).

(** The same answer announcing a body of four gigabytes. *)
Definition oversized (code : Z) (body : list byte) : Response :=
  mkResponse code 4294967296 (fun _ => "application/json") (body, None).

(** A probe client whose service gives the same answer to every request. *)
Definition probeUtil (resp : Response) : RemoteSysProbeUtil :=
  mkRemoteSysProbeUtil "pipe" (fun _ => inl resp) (fun _ => inl resp).

End netExample.

(** ** Induction on parameter trees *)

Section ParamInduction.

Variable P : Param -> Prop.
Hypothesis step : forall name type kind loc reason pieces,
  Forall P pieces -> P (mkParameter name type kind loc reason pieces).

Fixpoint Param_tree_ind (p : Param) : P p :=
  match p with
  | mkParameter name type kind loc reason pieces =>
      step name type kind loc reason pieces
        ((fix all (ps : list Param) : Forall P ps :=
            match ps with
            | [] => Forall_nil P
            | q :: qs => Forall_cons q (Param_tree_ind q) (all qs)
            end) pieces)
  end.

End ParamInduction.

(** * Properties *)

(** ** strings.TrimPrefix on a one-character prefix *)

Lemma substring_all (s : string) : substring 0 (String.length s) s = s.
Proof.
  induction s as [|c s IH]; simpl; [reflexivity | now rewrite IH].
Qed.

Lemma cleanupTypeName_star (s : string) :
  cleanupTypeName (String "*" s) = s.
Proof.
  unfold cleanupTypeName, strings.TrimPrefix.
  cbn [String.prefix]. destruct (ascii_dec "*" "*") as [_|ne]; [|now elim ne].
  assert (Hp : String.prefix "" s = true) by (destruct s; reflexivity).
  rewrite Hp. cbn [String.length]. rewrite Nat.sub_succ, Nat.sub_0_r.
  cbn [substring]. apply substring_all.
Qed.

Lemma cleanupTypeName_other (s : string) :
  String.prefix "*" s = false -> cleanupTypeName s = s.
Proof.
  intros H. unfold cleanupTypeName, strings.TrimPrefix. now rewrite H.
Qed.

Lemma set_Type_fields (p : Param) (t : string) :
  Name (set_Type p t) = Name p /\ Type_ (set_Type p t) = t /\
  Kind (set_Type p t) = Kind p /\ Loc (set_Type p t) = Loc p /\
  Reason (set_Type p t) = Reason p /\
  ParameterPieces (set_Type p t) = ParameterPieces p.
Proof. destruct p; cbn; repeat split. Qed.

(** ** Buffers *)

Lemma append_empty_r (s : string) : s ++ "" = s.
Proof. induction s as [|c s IH]; cbn; [reflexivity | now rewrite IH]. Qed.

Lemma append_assoc (a b c : string) : (a ++ b) ++ c = a ++ (b ++ c).
Proof. induction a as [|x a IH]; cbn; [reflexivity | now rewrite IH]. Qed.

Section Properties.

Context {engine : TemplateEngine}.
Variable texts : TemplateTexts.
Variable applyCaptureDepth : list Param -> nat -> list Param.
Variable applyFieldCountLimit : list Param -> list Param.
Variable flattenParameters : list Param -> list Param.

(** ** The header generator *)

(** The loop inside [generateHeaderText] is [generateHeadersText]. *)
Lemma generateHeaderText_eq (param : Param) (out : Buffer) :
  generateHeaderText texts param out =
  if (Kind param =? reflect.Slice)%N then
    generateSliceHeader texts (Some param) out
  else if (Kind param =? reflect.String)%N then
    generateStringHeader texts (Some param) out
  else
    match resolveHeaderTemplate texts param with
    | inr err => (out, Some err)
    | inl tmplt =>
        let (out1, err) := ExecuteTo tmplt out (DataParameter param) in
        match err with
        | Some e => (out1, Some e)
        | None =>
            if negb (List.length (ParameterPieces param) =? 0)%nat
            then generateHeadersText texts (ParameterPieces param) out1
            else (out1, None)
        end
    end.
Proof.
  destruct param as [name type kind loc reason pieces]. reflexivity.
Qed.

(** On an empty list of pieces the loop writes nothing, so the test on the
    number of pieces can be dropped. *)
Lemma generateHeaderText_plain (param : Param) (out : Buffer) :
  (Kind param =? reflect.Slice)%N = false ->
  (Kind param =? reflect.String)%N = false ->
  generateHeaderText texts param out =
  match resolveHeaderTemplate texts param with
  | inr err => (out, Some err)
  | inl tmplt =>
      let (out1, err) := ExecuteTo tmplt out (DataParameter param) in
      match err with
      | Some e => (out1, Some e)
      | None => generateHeadersText texts (ParameterPieces param) out1
      end
  end.
Proof.
  intros Hs Hstr. rewrite generateHeaderText_eq, Hs, Hstr.
  destruct (resolveHeaderTemplate texts param) as [t|e]; [|reflexivity].
  destruct (ExecuteTo t out (DataParameter param)) as [out1 [e|]]; [reflexivity|].
  destruct (ParameterPieces param); reflexivity.
Qed.

(** C10: a parameter whose kind is neither string nor slice always resolves
    to the one default header template; two such parameters resolve to the
    same template, so [Location.InReg] selects nothing for these kinds. *)
Theorem resolveHeaderTemplate_default (p q : Param) :
  Kind p <> reflect.String -> Kind p <> reflect.Slice ->
  Kind q <> reflect.String -> Kind q <> reflect.Slice ->
  resolveHeaderTemplate texts p
    = Parse "header_template" (headerTemplateText texts)
  /\ resolveHeaderTemplate texts p = resolveHeaderTemplate texts q.
Proof.
  intros Hp1 Hp2 Hq1 Hq2. unfold resolveHeaderTemplate.
  apply N.eqb_neq in Hp1, Hp2, Hq1, Hq2.
  rewrite Hp1, Hp2, Hq1, Hq2. split; reflexivity.
Qed.

(** A string or slice without exactly two pieces gets the malformed-tree
    error of its kind and nothing is written. *)
Lemma generateHeaderText_malformed (p : Param) (out : Buffer) :
  Kind p = reflect.String \/ Kind p = reflect.Slice ->
  List.length (ParameterPieces p) <> 2 ->
  generateHeaderText texts p out = (out, Some (malformedError p)).
Proof.
  intros Hk Hlen. rewrite generateHeaderText_eq. unfold malformedError.
  destruct Hk as [Hk | Hk]; rewrite Hk;
    cbn [N.eqb Pos.eqb reflect.String reflect.Slice];
    unfold generateStringHeader, generateSliceHeader, generateSliceHeader_with;
    destruct (ParameterPieces p) as [|a [|b [|c l]]]; cbn [List.length] in *;
    try reflexivity; now elim Hlen.
Qed.

(** With two pieces, the header of a string is generated without error
    exactly when its parts render. *)
Lemma generateStringHeader_ok (p : Param) (out : Buffer) :
  (Kind p =? reflect.Slice)%N = false ->
  snd (generateStringHeader texts (Some p) out) = None <->
  headerPartsRender texts p.
Proof.
  intros Hk. unfold headerPartsRender, generateStringHeader. rewrite Hk. split.
  - destruct (ParameterPieces p) as [|a [|b [|c l]]]; try discriminate.
    destruct (generateStringLengthHeader texts b "") as [lengthText [e|]]
      eqn:Hlen; [discriminate|].
    destruct (resolveHeaderTemplate texts p) as [t|e]; [|discriminate].
    unfold ExecuteTo.
    destruct (Execute t _) as [written [e|]] eqn:Hex; [discriminate|].
    intros _. exists a, b, lengthText, t. rewrite Hex. repeat split.
    exact Hlen.
  - intros (a & b & lengthText & t & -> & -> & -> & Hex).
    unfold ExecuteTo. destruct (Execute t _) as [written [e|]];
      [discriminate Hex | reflexivity].
Qed.

(** The same for a slice. *)
Lemma generateSliceHeader_ok (p : Param) (out : Buffer) :
  (Kind p =? reflect.Slice)%N = true ->
  snd (generateSliceHeader texts (Some p) out) = None <->
  headerPartsRender texts p.
Proof.
  intros Hk.
  unfold headerPartsRender, generateSliceHeader, generateSliceHeader_with.
  rewrite Hk. split.
  - destruct (ParameterPieces p) as [|a [|b [|c l]]]; try discriminate.
    destruct (generateHeaderText texts a "") as [typeText [e|]] eqn:Htype;
      [discriminate|].
    destruct (generateSliceLengthHeader texts b "") as [lengthText [e|]]
      eqn:Hlen; [discriminate|].
    destruct (resolveHeaderTemplate texts p) as [t|e]; [|discriminate].
    unfold ExecuteTo.
    destruct (Execute t _) as [written [e|]] eqn:Hex; [discriminate|].
    intros _. exists a, b, lengthText, t. repeat split.
    exists typeText. rewrite Hex. repeat split; assumption.
  - intros (a & b & lengthText & t & -> & -> & typeText & -> & -> & Hex).
    unfold ExecuteTo. destruct (Execute t _) as [written [e|]];
      [discriminate Hex | reflexivity].
Qed.

(** C2, amended: a string or slice without exactly two pieces gets the
    malformed-tree error of its kind (a fixed message for a slice, a message
    with the piece count for a string) and nothing is written; header
    generation succeeds exactly when the parameter has two pieces and the
    parts of its header render. *)
Theorem generateHeaderText_two_pieces (p : Param) (out : Buffer) :
  Kind p = reflect.String \/ Kind p = reflect.Slice ->
  (List.length (ParameterPieces p) <> 2 ->
     generateHeaderText texts p out = (out, Some (malformedError p)))
  /\ (snd (generateHeaderText texts p out) = None <->
      List.length (ParameterPieces p) = 2 /\ headerPartsRender texts p).
Proof.
  intros Hk. split; [exact (generateHeaderText_malformed p out Hk)|].
  assert (Hiff : snd (generateHeaderText texts p out) = None <->
                 headerPartsRender texts p).
  { rewrite generateHeaderText_eq.
    destruct Hk as [Hk | Hk].
    - assert (Hs : (Kind p =? reflect.Slice)%N = false) by now rewrite Hk.
      assert (Hstr : (Kind p =? reflect.String)%N = true) by now rewrite Hk.
      rewrite Hs, Hstr. exact (generateStringHeader_ok p out Hs).
    - assert (Hs : (Kind p =? reflect.Slice)%N = true) by now rewrite Hk.
      rewrite Hs. exact (generateSliceHeader_ok p out Hs). }
  rewrite Hiff. split; [|tauto].
  intros Hparts. split; [|exact Hparts].
  destruct Hparts as (a & b & lengthText & t & -> & _). reflexivity.
Qed.

(** The length header of a slice: the length template of the flavour of the
    length piece, rendered for that piece. *)
Lemma generateSliceLengthHeader_eq (piece : Param) (buf : Buffer) :
  generateSliceLengthHeader texts piece buf =
  match Parse (if InReg (Loc piece) then "slice_register_length_header"
               else "slice_stack_length_header")
              (if InReg (Loc piece) then sliceLengthRegisterTemplateText texts
               else sliceLengthStackTemplateText texts) with
  | inr err => (buf, Some err)
  | inl tmplte => ExecuteTo tmplte buf (DataParameter piece)
  end.
Proof.
  unfold generateSliceLengthHeader. destruct (InReg (Loc piece)); reflexivity.
Qed.

(** C6, amended: for a slice with two pieces whose element header and
    length header are generated without error and whose outer template
    parses, header generation appends to the buffer
    exactly the rendering of the outer slice-header template, in the flavour
    of the slice's own location, for the wrapper that holds the element
    header text of the first piece and the length text of the second piece;
    the length text is the rendering of the length template in the flavour
    of the second piece's location.  The child texts reach the buffer only
    inside that rendering. *)
Theorem generateHeaderText_slice
  (slice piece0 piece1 : Param) (out typeText lengthText : string)
  (lengthTemplate sliceTemplate : Template) :
  Kind slice = reflect.Slice ->
  ParameterPieces slice = [piece0; piece1] ->
  generateHeaderText texts piece0 "" = (typeText, None) ->
  Parse (if InReg (Loc piece1) then "slice_register_length_header"
         else "slice_stack_length_header")
        (if InReg (Loc piece1) then sliceLengthRegisterTemplateText texts
         else sliceLengthStackTemplateText texts) = inl lengthTemplate ->
  Execute lengthTemplate (DataParameter piece1) = (lengthText, None) ->
  Parse (if InReg (Loc slice) then "slice_reg_header_template"
         else "slice_stack_header_template")
        (if InReg (Loc slice) then sliceRegisterHeaderTemplateText texts
         else sliceStackHeaderTemplateText texts) = inl sliceTemplate ->
  let w := mkSliceHeaderWrapper slice lengthText typeText in
  generateHeaderText texts slice out =
  (out ++ fst (Execute sliceTemplate (DataSliceHeader w)),
   wrapSliceHeader (snd (Execute sliceTemplate (DataSliceHeader w)))).
Proof.
  intros Hk Hp H0 Hlt Hl Hst w.
  rewrite generateHeaderText_eq, Hk. cbn [N.eqb Pos.eqb reflect.Slice].
  unfold generateSliceHeader, generateSliceHeader_with.
  rewrite Hp, H0, generateSliceLengthHeader_eq, Hlt.
  unfold ExecuteTo at 1. rewrite Hl. cbn [append].
  assert (Hres : resolveHeaderTemplate texts slice = inl sliceTemplate).
  { unfold resolveHeaderTemplate. rewrite Hk.
    cbn [N.eqb Pos.eqb reflect.Slice reflect.String].
    destruct (InReg (Loc slice)); exact Hst. }
  rewrite Hres. unfold ExecuteTo. fold w.
  destruct (Execute sliceTemplate (DataSliceHeader w)) as [written [e|]];
    reflexivity.
Qed.

(** ** The body generator *)

(** C4: for an array, struct or pointer, body generation writes nothing,
    returns no error and leaves the parameter as it is, whatever its
    location, capture veto and pieces. *)
Theorem generateParameterText_container (p : Param) (out : Buffer) :
  Kind p = reflect.Array \/ Kind p = reflect.Struct \/ Kind p = reflect.Pointer ->
  generateParameterText texts p out = (p, out, None).
Proof.
  intros H. unfold generateParameterText.
  destruct H as [H | [H | H]]; rewrite H; reflexivity.
Qed.

(** What body generation does outside the skipped kinds, in terms of the
    template that was resolved. *)
Lemma generateParameterText_read (p : Param) (out : Buffer) :
  containerKind (Kind p) = false ->
  generateParameterText texts p out =
  match resolveParameterTemplate texts p with
  | inr err => (p, out, Some err)
  | inl t =>
      let p' := set_Type p (cleanupTypeName (Type_ p)) in
      (p', out ++ fst (Execute t (DataParameter p')),
       wrapRead (snd (Execute t (DataParameter p'))))
  end.
Proof.
  unfold containerKind, generateParameterText. intros ->.
  destruct (resolveParameterTemplate texts p) as [t|e]; [|reflexivity].
  unfold ExecuteTo. cbv zeta.
  destruct (Execute t _) as [written [e|]]; reflexivity.
Qed.

(** C5: with no capture veto, the body template is the pointer-read
    template when the location needs a dereference, whatever the kind;
    otherwise the string-read template for a string, the slice-read template
    for a slice and the plain-value template for any other kind; each in the
    register or stack flavour given by [Location.InReg]. *)
Theorem resolveParameterTemplate_precedence (p : Param) :
  containerKind (Kind p) = false ->
  Reason p = NoReason ->
  (NeedsDereference (Loc p) = true ->
     resolveParameterTemplate texts p =
     if InReg (Loc p)
     then Parse "pointer_register_template" (pointerRegisterTemplateText texts)
     else Parse "pointer_stack_template" (pointerStackTemplateText texts))
  /\ (NeedsDereference (Loc p) = false -> Kind p = reflect.String ->
     resolveParameterTemplate texts p =
     if InReg (Loc p)
     then Parse "string_register_template" (stringRegisterTemplateText texts)
     else Parse "string_stack_template" (stringStackTemplateText texts))
  /\ (NeedsDereference (Loc p) = false -> Kind p = reflect.Slice ->
     resolveParameterTemplate texts p =
     if InReg (Loc p)
     then Parse "slice_register_template" (sliceRegisterTemplateText texts)
     else Parse "slice_stack_template" (sliceStackTemplateText texts))
  /\ (NeedsDereference (Loc p) = false ->
     Kind p <> reflect.String -> Kind p <> reflect.Slice ->
     resolveParameterTemplate texts p =
     if InReg (Loc p)
     then Parse "register_template" (normalValueRegisterTemplateText texts)
     else Parse "stack_template" (normalValueStackTemplateText texts)).
Proof.
  intros _ Hr.
  unfold resolveParameterTemplate, resolveRegisterParameterTemplate,
    resolveStackParameterTemplate.
  rewrite Hr. cbn [NotCaptureReason_eqb]. cbv zeta.
  repeat split.
  - intros ->. destruct (InReg (Loc p)); reflexivity.
  - intros -> ->. destruct (InReg (Loc p)); reflexivity.
  - intros -> ->. destruct (InReg (Loc p)); reflexivity.
  - intros -> H1 H2. apply N.eqb_neq in H1, H2. rewrite H1, H2.
    destruct (InReg (Loc p)); reflexivity.
Qed.

(** Every parameter is covered by a row of the matrix of its flavour. *)
Lemma bodyMatrix_total (p : Param) :
  existsb (fun row => rowCovers row p) (bodyMatrix texts p) = true.
Proof.
  unfold bodyMatrix, registerMatrix, stackMatrix.
  destruct (InReg (Loc p)); cbn;
    destruct (NeedsDereference (Loc p)); cbn;
    now rewrite ?orb_true_r.
Qed.

(** C3, amended: with no capture veto, body-template resolution always
    ends in parsing a template, so the dispatch itself never answers with
    the no-template error; and a kind that has no shape and needs no
    dereference is not refused: it gets the plain-value template of its
    flavour. *)
Theorem resolveParameterTemplate_no_dispatch_error (p : Param) :
  Reason p = NoReason ->
  (exists name text, resolveParameterTemplate texts p = Parse name text)
  /\ (shapeOfKind (Kind p) = None ->
      NeedsDereference (Loc p) = false ->
      resolveParameterTemplate texts p =
      if InReg (Loc p)
      then Parse "register_template" (normalValueRegisterTemplateText texts)
      else Parse "stack_template" (normalValueStackTemplateText texts)).
Proof.
  intros Hr.
  unfold resolveParameterTemplate, resolveRegisterParameterTemplate,
    resolveStackParameterTemplate.
  rewrite Hr. cbn [NotCaptureReason_eqb]. cbv zeta. split.
  - destruct (InReg (Loc p));
      (destruct (NeedsDereference (Loc p)); [eauto|]);
      (destruct (Kind p =? reflect.String)%N; [eauto|]);
      (destruct (Kind p =? reflect.Slice)%N; [eauto|]); cbn [negb]; eauto.
  - unfold shapeOfKind. intros Hshape ->.
    destruct (Kind p =? reflect.String)%N; [discriminate Hshape|].
    destruct (Kind p =? reflect.Slice)%N; [discriminate Hshape|].
    destruct (InReg (Loc p)); reflexivity.
Qed.

(** C1, amended: outside the skipped kinds, a vetoed parameter resolves to
    the stub of its veto, whatever its kind and location, and body
    generation writes that stub rendered for the parameter. *)
Theorem resolveParameterTemplate_veto (p : Param) (out : Buffer) :
  containerKind (Kind p) = false ->
  Reason p <> NoReason ->
  exists name text,
    ((Reason p = Unsupported /\ name = "unsupported_type_template"
        /\ text = unsupportedTypeTemplateText texts)
     \/ (Reason p = FieldLimitReached /\ name = "cut_field_limit_template"
        /\ text = cutForFieldLimitTemplateText texts))
    /\ resolveParameterTemplate texts p = Parse name text
    /\ forall stub, Parse name text = inl stub ->
         let p' := set_Type p (cleanupTypeName (Type_ p)) in
         generateParameterText texts p out =
         (p', out ++ fst (Execute stub (DataParameter p')),
          wrapRead (snd (Execute stub (DataParameter p')))).
Proof.
  intros Hk Hr.
  assert (Hres : forall name text,
            resolveParameterTemplate texts p = Parse name text ->
            forall stub, Parse name text = inl stub ->
            let p' := set_Type p (cleanupTypeName (Type_ p)) in
            generateParameterText texts p out =
            (p', out ++ fst (Execute stub (DataParameter p')),
             wrapRead (snd (Execute stub (DataParameter p'))))).
  { intros name text Heq stub Hstub.
    rewrite (generateParameterText_read p out Hk), Heq, Hstub. reflexivity. }
  destruct (Reason p) eqn:E; [now elim Hr | | ].
  - exists "unsupported_type_template", (unsupportedTypeTemplateText texts).
    assert (Heq : resolveParameterTemplate texts p =
                  Parse "unsupported_type_template"
                        (unsupportedTypeTemplateText texts))
      by (unfold resolveParameterTemplate; rewrite E; reflexivity).
    split; [left; repeat split | split; [exact Heq | exact (Hres _ _ Heq)]].
  - exists "cut_field_limit_template", (cutForFieldLimitTemplateText texts).
    assert (Heq : resolveParameterTemplate texts p =
                  Parse "cut_field_limit_template"
                        (cutForFieldLimitTemplateText texts))
      by (unfold resolveParameterTemplate; rewrite E; reflexivity).
    split; [right; repeat split | split; [exact Heq | exact (Hres _ _ Heq)]].
Qed.

(** C9: [cleanupTypeName] removes one leading star and nothing else, and
    body generation applies it to the [Type] label alone: the kind, the
    location and the other fields of the parameter stay as they were, and
    the template is rendered for the parameter with the cleaned label. *)
Theorem cleanupTypeName_label :
  cleanupTypeName "*Widget" = "Widget"
  /\ cleanupTypeName "Widget" = "Widget"
  /\ cleanupTypeName "**Widget" = "*Widget"
  /\ (forall s, cleanupTypeName (String "*" s) = s)
  /\ (forall s, String.prefix "*" s = false -> cleanupTypeName s = s)
  /\ (forall p out,
        let p' := fst (fst (generateParameterText texts p out)) in
        Kind p' = Kind p /\ Loc p' = Loc p /\ Name p' = Name p
        /\ Reason p' = Reason p /\ ParameterPieces p' = ParameterPieces p
        /\ (p' = p \/ Type_ p' = cleanupTypeName (Type_ p)))
  /\ (forall p out t,
        containerKind (Kind p) = false ->
        resolveParameterTemplate texts p = inl t ->
        let p' := set_Type p (cleanupTypeName (Type_ p)) in
        snd (fst (generateParameterText texts p out))
          = out ++ fst (Execute t (DataParameter p'))).
Proof.
  split; [reflexivity|]. split; [reflexivity|]. split; [reflexivity|].
  split; [exact cleanupTypeName_star|].
  split; [exact cleanupTypeName_other|].
  split.
  - intros p out. cbv zeta.
    destruct (containerKind (Kind p)) eqn:Hk.
    + assert (H : generateParameterText texts p out = (p, out, None)).
      { unfold generateParameterText. unfold containerKind in Hk.
        now rewrite Hk. }
      rewrite H. cbn. repeat split. now left.
    + rewrite (generateParameterText_read p out Hk).
      destruct (resolveParameterTemplate texts p) as [t|e].
      * cbn [fst]. destruct (set_Type_fields p (cleanupTypeName (Type_ p)))
          as (Hn & Ht & Hkd & Hl & Hr & Hp).
        repeat split; try assumption. now right.
      * cbn. repeat split. now left.
  - intros p out t Hk Ht. cbv zeta.
    now rewrite (generateParameterText_read p out Hk), Ht.
Qed.

(** ** The entry point *)

(** C7: with [CaptureParameters] off, generation stores the empty text on
    the probe, returns no error and logs one informational note, whatever
    the parameter trees of the process are. *)
Theorem GenerateBPFParamsCode_disabled
  (procInfo : ProcessInfo) (probe : Probe) (logged : list LogEntry) :
  CaptureParameters (InstrumentationOptions_ (InstrumentationInfo_ probe)) = false ->
  GenerateBPFParamsCode texts applyCaptureDepth applyFieldCountLimit
    flattenParameters procInfo probe logged
  = (set_BPFParametersSourceCode probe "",
     (logged ++ [mkLogEntry InfoLvl "Not capturing parameters"])%list,
     None)
  /\ BPFParametersSourceCode
       (InstrumentationInfo_ (set_BPFParametersSourceCode probe "")) = "".
Proof.
  intros H. unfold GenerateBPFParamsCode. rewrite H. split; reflexivity.
Qed.

(** *** Generators only append *)

(** Close a branch that wrote nothing. *)
Ltac nothing_written := cbn [fst snd]; rewrite append_empty_r; reflexivity.

Lemma generateStringHeader_append (param : option Param) :
  appendOnly (generateStringHeader texts param).
Proof.
  intros out. unfold generateStringHeader.
  destruct param as [p|]; [|nothing_written].
  destruct (ParameterPieces p) as [|a [|b [|c l]]]; try nothing_written.
  destruct (generateStringLengthHeader texts b "") as [buf [e|]];
    [nothing_written|].
  destruct (resolveHeaderTemplate texts p) as [t|e]; [|nothing_written].
  unfold ExecuteTo. destruct (Execute t _) as [written [e|]]; reflexivity.
Qed.

Lemma generateSliceHeader_append (param : option Param) :
  appendOnly (generateSliceHeader texts param).
Proof.
  intros out. unfold generateSliceHeader, generateSliceHeader_with.
  destruct param as [p|]; [|nothing_written].
  destruct (ParameterPieces p) as [|a [|b [|c l]]]; try nothing_written.
  destruct (generateHeaderText texts a "") as [typeText [e|]];
    [nothing_written|].
  destruct (generateSliceLengthHeader texts b "") as [lengthText [e|]];
    [nothing_written|].
  destruct (resolveHeaderTemplate texts p) as [t|e]; [|nothing_written].
  unfold ExecuteTo. destruct (Execute t _) as [written [e|]]; reflexivity.
Qed.

Lemma generateHeadersText_append (params : list Param) :
  Forall (fun p => appendOnly (generateHeaderText texts p)) params ->
  appendOnly (generateHeadersText texts params).
Proof.
  induction 1 as [|p rest Hp _ IH]; intros out; cbn [generateHeadersText].
  - cbn. now rewrite append_empty_r.
  - rewrite (Hp out).
    destruct (generateHeaderText texts p "") as [written [e|]]; cbn [fst snd].
    + reflexivity.
    + rewrite (IH (out ++ written)), (IH written). cbn [fst snd].
      now rewrite append_assoc.
Qed.

Lemma generateHeaderText_append (param : Param) :
  appendOnly (generateHeaderText texts param).
Proof.
  induction param as [name type kind loc reason pieces IH] using Param_tree_ind.
  intros out. set (param := mkParameter name type kind loc reason pieces).
  destruct (Kind param =? reflect.Slice)%N eqn:Hs.
  { rewrite !generateHeaderText_eq, Hs. apply generateSliceHeader_append. }
  destruct (Kind param =? reflect.String)%N eqn:Hstr.
  { rewrite !generateHeaderText_eq, Hs, Hstr. apply generateStringHeader_append. }
  rewrite !(generateHeaderText_plain _ _ Hs Hstr).
  destruct (resolveHeaderTemplate texts param) as [t|e]; [|nothing_written].
  unfold ExecuteTo.
  destruct (Execute t (DataParameter param)) as [written [e|]];
    [reflexivity|].
  pose proof (generateHeadersText_append pieces IH) as Hall.
  change (ParameterPieces param) with pieces.
  rewrite (Hall (out ++ written)), (Hall ("" ++ written)).
  cbn [fst snd append]. now rewrite append_assoc.
Qed.

Lemma generateHeadersText_appendOnly (params : list Param) :
  appendOnly (generateHeadersText texts params).
Proof.
  apply generateHeadersText_append, Forall_forall.
  intros p _. apply generateHeaderText_append.
Qed.

(** Body generation: the parameters after the call and the error do not
    depend on the buffer, and the text is appended. *)
Lemma generateParameterText_append (p : Param) (out : Buffer) :
  generateParameterText texts p out =
  (fst (fst (generateParameterText texts p "")),
   out ++ snd (fst (generateParameterText texts p "")),
   snd (generateParameterText texts p "")).
Proof.
  unfold generateParameterText.
  destruct (_ || _); [cbn; now rewrite append_empty_r|].
  destruct (resolveParameterTemplate texts p) as [t|e];
    [| cbn; now rewrite append_empty_r].
  unfold ExecuteTo. destruct (Execute t _) as [written [e|]]; reflexivity.
Qed.

Lemma generateParametersText_append (params : list Param) (out : Buffer) :
  generateParametersText texts params out =
  (fst (fst (generateParametersText texts params "")),
   out ++ snd (fst (generateParametersText texts params "")),
   snd (generateParametersText texts params "")).
Proof.
  revert out. induction params as [|p rest IH]; intros out;
    cbn [generateParametersText].
  - cbn. now rewrite append_empty_r.
  - rewrite (generateParameterText_append p out).
    destruct (generateParameterText texts p "") as [[p' written] [e|]];
      cbn [fst snd]; [reflexivity|].
    rewrite (IH (out ++ written)), (IH written).
    cbn [fst snd]. now rewrite append_assoc.
Qed.

Lemma generateTopLevel_append (p : Param) :
  appendOnly (generateTopLevel texts flattenParameters p).
Proof.
  intros out. unfold generateTopLevel.
  rewrite (generateHeadersText_appendOnly (flattenParameters [p]) out).
  destruct (generateHeadersText texts (flattenParameters [p]) "")
    as [headers [e|]]; cbn [fst snd append]; [reflexivity|].
  rewrite (generateParametersText_append _ (out ++ headers)),
          (generateParametersText_append _ headers).
  destruct (generateParametersText texts (flattenParameters [p]) "")
    as [[ps bodies] err]; cbn [fst snd]. now rewrite append_assoc.
Qed.

(** The loop over the top-level parameters stops at the first one whose
    generation fails and returns its error. *)
Lemma generateAllTopLevel_first_failure
  (pre post : list Param) (p : Param) (e : error) :
  Forall (fun q => snd (generateTopLevel texts flattenParameters q "") = None) pre ->
  snd (generateTopLevel texts flattenParameters p "") = Some e ->
  forall out,
    snd (generateAllTopLevel texts flattenParameters (pre ++ p :: post) out)
    = Some e.
Proof.
  intros Hpre Hp. induction Hpre as [|q pre Hq _ IH]; intros out;
    cbn [app generateAllTopLevel].
  - rewrite (generateTopLevel_append p out), Hp. reflexivity.
  - rewrite (generateTopLevel_append q out), Hq. apply IH.
Qed.

(** A list with a failing parameter splits at its first failing one. *)
Lemma first_failure_split (params : list Param) (p : Param) (e0 : error) :
  In p params ->
  snd (generateTopLevel texts flattenParameters p "") = Some e0 ->
  exists pre q post e,
    params = (pre ++ q :: post)%list
    /\ Forall (fun r => snd (generateTopLevel texts flattenParameters r "") = None) pre
    /\ snd (generateTopLevel texts flattenParameters q "") = Some e.
Proof.
  intros Hin Hp. induction params as [|r rest IH]; [now elim Hin|].
  destruct (snd (generateTopLevel texts flattenParameters r "")) as [e|] eqn:Hr.
  - exists [], r, rest, e. cbn. repeat split; [constructor | exact Hr].
  - destruct Hin as [-> | Hin]; [rewrite Hp in Hr; discriminate Hr|].
    destruct (IH Hin) as (pre & q & post & e & -> & Hpre & Hq).
    exists (r :: pre), q, post, e. cbn. repeat split; [|exact Hq].
    constructor; assumption.
Qed.

Lemma GenerateBPFParamsCode_first_failure
  (procInfo : ProcessInfo) (probe : Probe) (logged : list LogEntry)
  (pre post : list Param) (p : Param) (e : error) :
  let options := InstrumentationOptions_ (InstrumentationInfo_ probe) in
  CaptureParameters options = true ->
  applyFieldCountLimit
    (applyCaptureDepth (map_index (Functions (TypeMap_ procInfo)) (FuncName probe))
                       (MaxReferenceDepth options)) = (pre ++ p :: post)%list ->
  Forall (fun q => snd (generateTopLevel texts flattenParameters q "") = None) pre ->
  snd (generateTopLevel texts flattenParameters p "") = Some e ->
  GenerateBPFParamsCode texts applyCaptureDepth applyFieldCountLimit
    flattenParameters procInfo probe logged = (probe, logged, Some e).
Proof.
  intros options Hc Hparams Hpre Hp. unfold GenerateBPFParamsCode.
  fold options. rewrite Hc, Hparams.
  pose proof (@generateAllTopLevel_first_failure pre post p e Hpre Hp "")
    as Hfail.
  destruct (generateAllTopLevel texts flattenParameters (pre ++ p :: post) "")
    as [out err]. cbn [snd] in Hfail. now rewrite Hfail.
Qed.

(** C8: when generation fails for some top-level parameter, the call
    returns the error of the first top-level parameter whose generation
    fails, and the probe and the log are as they were before the call: no
    text of the earlier parameters is stored on the probe. *)
Theorem GenerateBPFParamsCode_failure
  (procInfo : ProcessInfo) (probe : Probe) (logged : list LogEntry)
  (p : Param) (e0 : error) :
  let options := InstrumentationOptions_ (InstrumentationInfo_ probe) in
  let params :=
    applyFieldCountLimit
      (applyCaptureDepth (map_index (Functions (TypeMap_ procInfo)) (FuncName probe))
                         (MaxReferenceDepth options)) in
  CaptureParameters options = true ->
  In p params ->
  snd (generateTopLevel texts flattenParameters p "") = Some e0 ->
  exists pre q post e,
    params = (pre ++ q :: post)%list
    /\ Forall (fun r => snd (generateTopLevel texts flattenParameters r "") = None) pre
    /\ snd (generateTopLevel texts flattenParameters q "") = Some e
    /\ GenerateBPFParamsCode texts applyCaptureDepth applyFieldCountLimit
         flattenParameters procInfo probe logged = (probe, logged, Some e).
Proof.
  intros options params Hc Hin Hp.
  destruct (first_failure_split params p e0 Hin Hp)
    as (pre & q & post & e & Hsplit & Hpre & Hq).
  exists pre, q, post, e. repeat split; try assumption.
  exact (GenerateBPFParamsCode_first_failure procInfo probe logged
           pre post q e Hc Hsplit Hpre Hq).
Qed.

(** Whatever the error, a failing call stores nothing. *)
Lemma GenerateBPFParamsCode_error_keeps_probe
  (procInfo : ProcessInfo) (probe : Probe) (logged : list LogEntry) (e : error) :
  snd (GenerateBPFParamsCode texts applyCaptureDepth applyFieldCountLimit
         flattenParameters procInfo probe logged) = Some e ->
  fst (GenerateBPFParamsCode texts applyCaptureDepth applyFieldCountLimit
         flattenParameters procInfo probe logged) = (probe, logged).
Proof.
  unfold GenerateBPFParamsCode.
  destruct (CaptureParameters _); [|discriminate].
  destruct (generateAllTopLevel _ _ _ _) as [out [e'|]]; [reflexivity|discriminate].
Qed.

End Properties.

(** * The properties on concrete parameters *)

Section Examples.

Import Example.

(** C10 at a primitive in a register and a struct on the stack. *)
Lemma resolveHeaderTemplate_default_witness :
  resolveHeaderTemplate texts (intParam "a")
    = Parse "header_template" (headerTemplateText texts)
  /\ resolveHeaderTemplate texts (intParam "a")
     = resolveHeaderTemplate texts
         (mkParameter "w" "Widget" reflect.Struct onStack NoReason []).
Proof.
  apply (@resolveHeaderTemplate_default engine texts); discriminate.
Defined.

(** C4 at a vetoed struct with two fields. *)
Lemma generateParameterText_container_witness :
  generateParameterText texts vetoedStruct "so far" = (vetoedStruct, "so far", None).
Proof.
  apply (@generateParameterText_container engine texts).
  right; left; reflexivity.
Defined.

(** C5 at a value behind a pointer in a register. *)
Lemma resolveParameterTemplate_precedence_witness :
  resolveParameterTemplate texts pointerTyped
  = Parse "pointer_register_template" (pointerRegisterTemplateText texts).
Proof.
  exact (proj1 (@resolveParameterTemplate_precedence engine texts pointerTyped
                  eq_refl eq_refl) eq_refl).
Defined.

(** C3, as stated, fails at a map in a register: it has no shape, no row
    of the design is meant for it, and it is not refused with the
    no-template error but given the plain-value template, which body
    generation renders. *)
Lemma map_kind_falls_through :
  Reason mapTyped = NoReason
  /\ shapeOfKind (Kind mapTyped) = None
  /\ resolveParameterTemplate texts mapTyped
     = inl ("register_template", "value_reg")
  /\ resolveParameterTemplate texts mapTyped <> inr noTemplateError
  /\ generateParameterText texts mapTyped ""
     = (mapTyped, "value_reg(map[string]int m)", None).
Proof.
  repeat split; try reflexivity. discriminate.
Qed.

(** C3, amended, at the same map. *)
Lemma resolveParameterTemplate_no_dispatch_error_witness :
  (exists name text, resolveParameterTemplate texts mapTyped = Parse name text)
  /\ resolveParameterTemplate texts mapTyped
     = Parse "register_template" (normalValueRegisterTemplateText texts).
Proof.
  split.
  - exact (proj1 (@resolveParameterTemplate_no_dispatch_error engine texts
                    mapTyped eq_refl)).
  - exact (proj2 (@resolveParameterTemplate_no_dispatch_error engine texts
                    mapTyped eq_refl) eq_refl eq_refl).
Defined.

(** C1, as stated, fails at a vetoed struct: its stub would be the text
    below, and body generation writes nothing. *)
Lemma vetoed_struct_gets_no_stub :
  Reason vetoedStruct = Unsupported
  /\ resolveParameterTemplate texts vetoedStruct
     = inl ("unsupported_type_template", "unsupported")
  /\ fst (Execute ("unsupported_type_template", "unsupported")
            (DataParameter vetoedStruct)) = "unsupported(Widget w)"
  /\ generateParameterText texts vetoedStruct "" = (vetoedStruct, "", None)
  /\ snd (fst (generateParameterText texts vetoedStruct ""))
     <> fst (Execute ("unsupported_type_template", "unsupported")
               (DataParameter vetoedStruct)).
Proof.
  repeat split; try reflexivity. vm_compute. discriminate.
Qed.

(** C1, amended, at a vetoed primitive on the stack. *)
Lemma resolveParameterTemplate_veto_witness :
  exists name text,
    ((Reason vetoedInt = Unsupported /\ name = "unsupported_type_template"
        /\ text = unsupportedTypeTemplateText texts)
     \/ (Reason vetoedInt = FieldLimitReached /\ name = "cut_field_limit_template"
        /\ text = cutForFieldLimitTemplateText texts))
    /\ resolveParameterTemplate texts vetoedInt = Parse name text
    /\ forall stub, Parse name text = inl stub ->
         let p' := set_Type vetoedInt (cleanupTypeName (Type_ vetoedInt)) in
         generateParameterText texts vetoedInt "" =
         (p', "" ++ fst (Execute stub (DataParameter p')),
          wrapRead (snd (Execute stub (DataParameter p')))).
Proof.
  apply (@resolveParameterTemplate_veto engine texts vetoedInt "");
    [reflexivity | discriminate].
Defined.

(** C2, as stated, fails twice: a slice with exactly two pieces whose
    element is a string without pieces does not get a header; and two
    slices that differ in their names get the same error, which names
    neither. *)
Lemma two_pieces_not_enough_and_error_unnamed :
  (List.length (ParameterPieces sliceOfEmptyString) = 2
   /\ generateHeaderText texts sliceOfEmptyString ""
      = ("", Some (errorString
           "invalid string parameter when generating header code (pieces len 0)")))
  /\ (Name (badSlice "first") <> Name (badSlice "second")
      /\ generateHeaderText texts (badSlice "first") ""
         = ("", Some (errorString
              "invalid slice parameter when generating header code"))
      /\ generateHeaderText texts (badSlice "second") ""
         = generateHeaderText texts (badSlice "first") "").
Proof.
  repeat split; try reflexivity. discriminate.
Qed.

(** C2, amended, at a slice with three pieces. *)
Lemma generateHeaderText_two_pieces_witness :
  (List.length (ParameterPieces (badSlice "xs")) <> 2 ->
     generateHeaderText texts (badSlice "xs") "so far"
     = ("so far", Some (malformedError (badSlice "xs"))))
  /\ (snd (generateHeaderText texts (badSlice "xs") "so far") = None <->
      List.length (ParameterPieces (badSlice "xs")) = 2
      /\ headerPartsRender texts (badSlice "xs")).
Proof.
  apply (@generateHeaderText_two_pieces engine texts (badSlice "xs") "so far").
  right; reflexivity.
Defined.

(** C6, as stated, fails at a slice with exactly two pieces whose element
    is a string without pieces: the outer template parses, but nothing is
    written, whatever child texts the wrapper would hold, and the error of
    the element is returned. *)
Lemma slice_with_malformed_element_renders_nothing :
  Kind sliceOfEmptyString = reflect.Slice
  /\ List.length (ParameterPieces sliceOfEmptyString) = 2
  /\ resolveHeaderTemplate texts sliceOfEmptyString
     = inl ("slice_reg_header_template", "slice_reg_header")
  /\ generateHeaderText texts sliceOfEmptyString "so far;"
     = ("so far;",
        Some (errorString
          "invalid string parameter when generating header code (pieces len 0)"))
  /\ forall typeText lengthText,
       fst (generateHeaderText texts sliceOfEmptyString "so far;")
       <> "so far;"
          ++ fst (Execute ("slice_reg_header_template", "slice_reg_header")
                    (DataSliceHeader
                       (mkSliceHeaderWrapper sliceOfEmptyString lengthText
                          typeText))).
Proof.
  repeat split; try reflexivity.
  intros typeText lengthText. cbn. discriminate.
Qed.

(** C6, amended, at a slice of ints on the stack whose length is in a
    register. *)
Lemma generateHeaderText_slice_witness :
  generateHeaderText texts goodSlice "so far;" =
  ("so far;slice_stack_header(xs of header(int elem) len slice_reg_len(int len))",
   None).
Proof.
  exact (@generateHeaderText_slice engine texts goodSlice
           (intParam "elem") (intParam "len") "so far;"
           "header(int elem)" "slice_reg_len(int len)"
           ("slice_register_length_header", "slice_reg_len")
           ("slice_stack_header_template", "slice_stack_header")
           eq_refl eq_refl eq_refl eq_refl eq_refl eq_refl).
Defined.

(** C7 at a probe with capture off and a malformed tree. *)
Lemma GenerateBPFParamsCode_disabled_witness :
  run [goodString; sliceOfEmptyString] false
  = (set_BPFParametersSourceCode (probe false) "",
     [mkLogEntry InfoLvl "Not capturing parameters"], None)
  /\ BPFParametersSourceCode
       (InstrumentationInfo_ (set_BPFParametersSourceCode (probe false) "")) = "".
Proof.
  exact (@GenerateBPFParamsCode_disabled engine texts applyCaptureDepth
           applyFieldCountLimit flattenParameters
           (procInfo [goodString; sliceOfEmptyString]) (probe false) []
           eq_refl).
Defined.

(** C8 at a function whose second parameter is malformed. *)
Lemma GenerateBPFParamsCode_failure_witness :
  exists pre q post e,
    [goodString; sliceOfEmptyString; vetoedInt] = (pre ++ q :: post)%list
    /\ Forall (fun r => snd (generateTopLevel texts flattenParameters r "") = None) pre
    /\ snd (generateTopLevel texts flattenParameters q "") = Some e
    /\ run [goodString; sliceOfEmptyString; vetoedInt] true
       = (probe true, [], Some e).
Proof.
  exact (@GenerateBPFParamsCode_failure engine texts applyCaptureDepth
           applyFieldCountLimit flattenParameters
           (procInfo [goodString; sliceOfEmptyString; vetoedInt]) (probe true) []
           sliceOfEmptyString
           (errorString
              "invalid string parameter when generating header code (pieces len 0)")
           eq_refl (or_intror (or_introl eq_refl)) eq_refl).
Defined.

End Examples.

(** * Further properties of the generators *)

Section Generators.

Context {engine : TemplateEngine}.
Variable texts : TemplateTexts.
Variable applyCaptureDepth : list Param -> nat -> list Param.
Variable applyFieldCountLimit : list Param -> list Param.
Variable flattenParameters : list Param -> list Param.

(** ** Buffers are only appended to *)

(** Header generation keeps what the buffer held and appends to it: the text
    it writes and the error it returns are those of a run on the empty
    buffer. *)
Theorem generateHeaderText_only_appends (param : Param) (out : Buffer) :
  generateHeaderText texts param out
  = (out ++ fst (generateHeaderText texts param ""),
     snd (generateHeaderText texts param "")).
Proof. exact (generateHeaderText_append texts param out). Qed.

(** Body generation of a list keeps what the buffer held and appends to it;
    the parameters it leaves and the error it returns do not depend on the
    buffer. *)
Theorem generateParametersText_only_appends (params : list Param) (out : Buffer) :
  generateParametersText texts params out
  = (fst (fst (generateParametersText texts params "")),
     out ++ snd (fst (generateParametersText texts params "")),
     snd (generateParametersText texts params "")).
Proof. exact (generateParametersText_append texts params out). Qed.

(** ** Headers *)

(** The headers of a list are the headers of its first part followed, when
    those were generated without error, by the headers of the rest; an error
    in the first part ends the run with what was written until then. *)
Theorem generateHeadersText_app (first rest : list Param) (out : Buffer) :
  generateHeadersText texts (first ++ rest) out =
  match generateHeadersText texts first out with
  | (out1, Some e) => (out1, Some e)
  | (out1, None) => generateHeadersText texts rest out1
  end.
Proof.
  revert out. induction first as [|p first IH]; intros out; cbn [app generateHeadersText].
  - reflexivity.
  - destruct (generateHeaderText texts p out) as [out' [e|]]; [reflexivity|].
    apply IH.
Qed.

(** A parameter that is neither a slice nor a string gets its own header
    first and the headers of its pieces, in order, after it. *)
Theorem generateHeaderText_self_then_pieces
  (param : Param) (out selfText : string) (t : Template) :
  Kind param <> reflect.Slice -> Kind param <> reflect.String ->
  Parse "header_template" (headerTemplateText texts) = inl t ->
  Execute t (DataParameter param) = (selfText, None) ->
  generateHeaderText texts param out
  = (out ++ selfText ++ fst (generateHeadersText texts (ParameterPieces param) ""),
     snd (generateHeadersText texts (ParameterPieces param) "")).
Proof.
  intros Hs Hstr Hparse Hexec.
  apply N.eqb_neq in Hs, Hstr.
  rewrite (generateHeaderText_plain texts param out Hs Hstr).
  unfold resolveHeaderTemplate. rewrite Hstr, Hs, Hparse.
  unfold ExecuteTo. rewrite Hexec.
  rewrite (generateHeadersText_appendOnly texts (ParameterPieces param)
             (out ++ selfText)).
  now rewrite append_assoc.
Qed.

(** For a string with two pieces whose length header is generated without
    error, header generation appends exactly the rendering of the outer
    string-header template, in the flavour of the string's own location, for
    the wrapper that holds the length text; the length text is rendered by
    the length template in the flavour of the second piece's location, and
    the first piece gets no header of its own. *)
Theorem generateHeaderText_string
  (str piece0 piece1 : Param) (out lengthText : string)
  (lengthTemplate stringTemplate : Template) :
  Kind str = reflect.String ->
  ParameterPieces str = [piece0; piece1] ->
  Parse (if InReg (Loc piece1) then "string_register_length_header"
         else "string_stack_length_header")
        (if InReg (Loc piece1) then stringLengthRegisterTemplateText texts
         else stringLengthStackTemplateText texts) = inl lengthTemplate ->
  Execute lengthTemplate (DataParameter piece1) = (lengthText, None) ->
  Parse (if InReg (Loc str) then "string_reg_header_template"
         else "string_stack_header_template")
        (if InReg (Loc str) then stringRegisterHeaderTemplateText texts
         else stringStackHeaderTemplateText texts) = inl stringTemplate ->
  let w := mkStringHeaderWrapper str lengthText in
  generateHeaderText texts str out =
  (out ++ fst (Execute stringTemplate (DataStringHeader w)),
   wrapStringHeader (snd (Execute stringTemplate (DataStringHeader w)))).
Proof.
  intros Hk Hp Hlt Hl Hst w.
  rewrite generateHeaderText_eq, Hk.
  cbn [N.eqb Pos.eqb reflect.Slice reflect.String].
  unfold generateStringHeader. rewrite Hp.
  assert (Hlen : generateStringLengthHeader texts piece1 "" = (lengthText, None)).
  { unfold generateStringLengthHeader.
    destruct (InReg (Loc piece1)); rewrite Hlt; unfold ExecuteTo;
      now rewrite Hl. }
  rewrite Hlen.
  assert (Hres : resolveHeaderTemplate texts str = inl stringTemplate).
  { unfold resolveHeaderTemplate. rewrite Hk.
    cbn [N.eqb Pos.eqb reflect.String].
    destruct (InReg (Loc str)); exact Hst. }
  rewrite Hres. unfold ExecuteTo. fold w.
  destruct (Execute stringTemplate (DataStringHeader w)) as [written [e|]];
    reflexivity.
Qed.

(** A failing header of a string or slice leaves the buffer as it was,
    unless the failure is that of executing the outer template, which comes
    wrapped behind the message of its kind. *)
Theorem generateHeaderText_failure_keeps_buffer
  (p : Param) (out out' : Buffer) (e : error) :
  Kind p = reflect.String \/ Kind p = reflect.Slice ->
  generateHeaderText texts p out = (out', Some e) ->
  out' = out
  \/ exists inner,
       e = wrapError
             (if (Kind p =? reflect.Slice)%N
              then "could not execute template for generating slice header: "
              else "could not execute template for generating string header: ")
             inner.
Proof.
  intros Hk. rewrite generateHeaderText_eq.
  destruct Hk as [Hk | Hk]; rewrite Hk;
    cbn [N.eqb Pos.eqb reflect.Slice reflect.String].
  - unfold generateStringHeader.
    destruct (ParameterPieces p) as [|a [|b [|c l]]];
      try (intros [= <- _]; now left).
    destruct (generateStringLengthHeader texts b "") as [buf [e1|]];
      [intros [= <- _]; now left|].
    destruct (resolveHeaderTemplate texts p) as [t|e1];
      [|intros [= <- _]; now left].
    unfold ExecuteTo. destruct (Execute t _) as [written [e1|]];
      intros [= _ <-]. right. now exists e1.
  - unfold generateSliceHeader, generateSliceHeader_with.
    destruct (ParameterPieces p) as [|a [|b [|c l]]];
      try (intros [= <- _]; now left).
    destruct (generateHeaderText texts a "") as [typeText [e1|]];
      [intros [= <- _]; now left|].
    destruct (generateSliceLengthHeader texts b "") as [lengthText [e1|]];
      [intros [= <- _]; now left|].
    destruct (resolveHeaderTemplate texts p) as [t|e1];
      [|intros [= <- _]; now left].
    unfold ExecuteTo. destruct (Execute t _) as [written [e1|]];
      intros [= _ <-]. right. now exists e1.
Qed.

(** ** Bodies *)

Lemma resolveParameterTemplate_set_Type (p : Param) (t : string) :
  resolveParameterTemplate texts (set_Type p t) = resolveParameterTemplate texts p.
Proof. destruct p; reflexivity. Qed.

Lemma set_Type_twice (p : Param) (a b : string) :
  set_Type (set_Type p a) b = set_Type p b.
Proof. destruct p; reflexivity. Qed.

Lemma resolveParameterTemplate_always_parses_aux (p : Param) :
  exists name text, resolveParameterTemplate texts p = Parse name text.
Proof.
  unfold resolveParameterTemplate, resolveRegisterParameterTemplate,
    resolveStackParameterTemplate. cbv zeta.
  destruct (NotCaptureReason_eqb (Reason p) Unsupported); [eauto|].
  destruct (NotCaptureReason_eqb (Reason p) FieldLimitReached); [eauto|].
  destruct (InReg (Loc p));
    (destruct (NeedsDereference (Loc p)); [eauto|]);
    (destruct (Kind p =? reflect.String)%N; [eauto|]);
    (destruct (Kind p =? reflect.Slice)%N; [eauto|]); cbn [negb]; eauto.
Qed.

(** Body-template resolution always ends in parsing one of the templates:
    it returns no error of its own making, and the branch that builds the
    no-template error is never taken. *)
Theorem resolveParameterTemplate_always_parses (p : Param) :
  exists name text, resolveParameterTemplate texts p = Parse name text.
Proof. apply resolveParameterTemplate_always_parses_aux. Qed.

(** The body text of a list is the body text of its members of the kinds
    that are read: arrays, structs and pointers add no text and no error,
    wherever they stand in the list. *)
Theorem generateParametersText_skips_containers (params : list Param) (out : Buffer) :
  snd (fst (generateParametersText texts params out))
  = snd (fst (generateParametersText texts (filter readKind params) out))
  /\ snd (generateParametersText texts params out)
     = snd (generateParametersText texts (filter readKind params) out).
Proof.
  revert out. induction params as [|p rest IH]; intros out; [split; reflexivity|].
  cbn [filter]. destruct (containerKind (Kind p)) eqn:Hk.
  - assert (Hr : readKind p = false) by (unfold readKind; now rewrite Hk).
    rewrite !Hr. cbn [generateParametersText].
    assert (H : generateParameterText texts p out = (p, out, None))
      by (unfold generateParameterText; unfold containerKind in Hk; now rewrite Hk).
    rewrite H. specialize (IH out).
    destruct (generateParametersText texts rest out) as [[rest' out'] err].
    exact IH.
  - assert (Hr : readKind p = true) by (unfold readKind; now rewrite Hk).
    rewrite !Hr. cbn [generateParametersText].
    destruct (generateParameterText texts p out) as [[p' out'] [e|]];
      [split; reflexivity|].
    specialize (IH out').
    destruct (generateParametersText texts rest out') as [[rest1 out1] err1].
    destruct (generateParametersText texts (filter readKind rest) out')
      as [[rest2 out2] err2].
    exact IH.
Qed.

(** What one body generation leaves in the place of its parameter. *)
Lemma generateParameterText_param (p : Param) (out : Buffer) :
  let '(p', _, err) := generateParameterText texts p out in
  (p' = p \/ p' = afterRead p) /\ (err = None -> p' = afterRead p).
Proof.
  unfold afterRead. destruct (containerKind (Kind p)) eqn:Hk.
  - assert (H : generateParameterText texts p out = (p, out, None))
      by (unfold generateParameterText; unfold containerKind in Hk; now rewrite Hk).
    rewrite H. split; [now left | reflexivity].
  - rewrite (generateParameterText_read texts p out Hk).
    destruct (resolveParameterTemplate texts p) as [t|e].
    + cbv zeta. split; [now right | reflexivity].
    + split; [now left | discriminate].
Qed.

(** Body generation changes nothing of its list but type labels: the list
    it leaves has, place by place, the parameter that was there or that
    parameter with its label cleaned; so no parameter is added, dropped or
    moved, and kinds, locations and pieces stay. *)
Theorem generateParametersText_keeps_shape (params : list Param) (out : Buffer) :
  Forall2 (fun p p' => p' = p \/ p' = afterRead p)
          params (fst (fst (generateParametersText texts params out))).
Proof.
  revert out. induction params as [|p rest IH]; intros out;
    cbn [generateParametersText]; [constructor|].
  pose proof (generateParameterText_param p out) as Hp.
  destruct (generateParameterText texts p out) as [[p' out'] [e|]].
  - cbn [fst]. constructor; [exact (proj1 Hp)|].
    clear. induction rest; constructor; [now left | assumption].
  - specialize (IH out').
    destruct (generateParametersText texts rest out') as [[rest' out''] err'].
    cbn [fst] in *. constructor; [exact (proj1 Hp) | exact IH].
Qed.

(** When body generation of a list returns no error, every parameter of a
    kind that is read is left with its type label cleaned, and the others
    are left as they were. *)
Theorem generateParametersText_success_params
  (params params' : list Param) (out out' : Buffer) :
  generateParametersText texts params out = (params', out', None) ->
  params' = map afterRead params.
Proof.
  revert params' out out'. induction params as [|p rest IH];
    intros params' out out'; cbn [generateParametersText map].
  - now intros [= <- _].
  - pose proof (generateParameterText_param p out) as Hp.
    destruct (generateParameterText texts p out) as [[p1 out1] [e|]];
      [discriminate|].
    destruct (generateParametersText texts rest out1) as [[rest' out2] err]
      eqn:Hrest.
    intros [= <- _ ->]. rewrite (proj2 Hp eq_refl).
    now rewrite (IH rest' out1 out2 Hrest).
Qed.

(** A leading star on the type label makes no difference to the body text:
    a parameter whose label is [*T] and the same parameter with label [T]
    get the same text and the same error. *)
Theorem generateParameterText_star_label (p : Param) (T : string) (out : Buffer) :
  String.prefix "*" T = false ->
  snd (fst (generateParameterText texts (set_Type p (String "*" T)) out))
  = snd (fst (generateParameterText texts (set_Type p T) out))
  /\ snd (generateParameterText texts (set_Type p (String "*" T)) out)
     = snd (generateParameterText texts (set_Type p T) out).
Proof.
  intros HT.
  destruct (set_Type_fields p (String "*" T)) as (_ & Ht1 & Hk1 & _).
  destruct (set_Type_fields p T) as (_ & Ht2 & Hk2 & _).
  destruct (containerKind (Kind p)) eqn:Hk.
  - unfold generateParameterText. rewrite Hk1, Hk2.
    unfold containerKind in Hk. rewrite Hk. split; reflexivity.
  - rewrite !generateParameterText_read by (now rewrite ?Hk1, ?Hk2).
    rewrite !resolveParameterTemplate_set_Type, Ht1, Ht2, !set_Type_twice.
    rewrite cleanupTypeName_star, (cleanupTypeName_other T HT).
    destruct (resolveParameterTemplate texts p); split; reflexivity.
Qed.

(** ** Which trees get a header *)

(** The headers of a list are generated without error exactly when the
    header of each member is. *)
Lemma generateHeadersText_ok_iff (params : list Param) (out : Buffer) :
  snd (generateHeadersText texts params out) = None <->
  Forall (fun p => snd (generateHeaderText texts p "") = None) params.
Proof.
  revert out. induction params as [|p rest IH]; intros out;
    cbn [generateHeadersText].
  - split; [constructor | reflexivity].
  - rewrite (generateHeaderText_append texts p out).
    destruct (generateHeaderText texts p "") as [written [e|]] eqn:Hp;
      cbn [fst snd].
    + split; [discriminate|]. intros H. inversion H as [|? ? Hp' _].
      rewrite Hp in Hp'. discriminate Hp'.
    + rewrite IH. split.
      * intros H. constructor; [now rewrite Hp | exact H].
      * intros H. now inversion H.
Qed.

Lemma headerWellFormed_of_ok (p : Param) :
  snd (generateHeaderText texts p "") = None -> headerWellFormed p = true.
Proof.
  induction p as [name type kind loc reason pieces IH] using Param_tree_ind.
  cbn [headerWellFormed].
  set (param := mkParameter name type kind loc reason pieces).
  destruct (kind =? reflect.Slice)%N eqn:Hs.
  { rewrite generateHeaderText_eq. cbn [Kind param]. rewrite Hs. intros Hok.
    apply (generateSliceHeader_ok texts param "" Hs) in Hok.
    destruct Hok as (a & b & lengthText & t & Hp & _ & Hparts).
    cbn [Kind param] in Hparts. rewrite Hs in Hparts.
    destruct Hparts as (typeText & Ha & _).
    cbn [ParameterPieces param] in Hp. subst pieces.
    inversion IH as [|? ? IHa _]. apply IHa. now rewrite Ha. }
  destruct (kind =? reflect.String)%N eqn:Hstr.
  { rewrite generateHeaderText_eq. cbn [Kind param]. rewrite Hs, Hstr.
    intros Hok.
    apply (generateStringHeader_ok texts param "" Hs) in Hok.
    destruct Hok as (a & b & lengthText & t & Hp & _).
    cbn [ParameterPieces param] in Hp. now subst pieces. }
  rewrite (generateHeaderText_plain texts param "" Hs Hstr).
  destruct (resolveHeaderTemplate texts param) as [t|e]; [|discriminate].
  destruct (ExecuteTo t "" (DataParameter param)) as [out1 [e|]];
    [discriminate|].
  cbn [ParameterPieces param]. rewrite generateHeadersText_ok_iff.
  intros Hall. apply forallb_forall. intros q Hq.
  rewrite Forall_forall in IH, Hall. exact (IH q Hq (Hall q Hq)).
Qed.

(** Header generation returns no error only on a tree without malformed
    strings or slices on its walk, whatever the templates are. *)
Theorem generateHeaderText_ok_wellFormed (p : Param) (out : Buffer) :
  snd (generateHeaderText texts p out) = None -> headerWellFormed p = true.
Proof.
  rewrite (generateHeaderText_append texts p out). cbn [snd].
  apply headerWellFormed_of_ok.
Qed.

Section TemplatesRender.

(** What the hypotheses on the header templates give at each place the
    header generator uses them. *)
Lemma resolveHeaderTemplate_default_ok (p : Param) :
  headerTemplatesRender texts ->
  (Kind p =? reflect.String)%N = false ->
  (Kind p =? reflect.Slice)%N = false ->
  exists t, resolveHeaderTemplate texts p = inl t
            /\ forall q, snd (Execute t (DataParameter q)) = None.
Proof.
  intros (Hparam & _ & _) Hstr Hs. unfold resolveHeaderTemplate.
  rewrite Hstr, Hs. apply Hparam. cbn. tauto.
Qed.

Lemma resolveHeaderTemplate_slice_ok (p : Param) :
  headerTemplatesRender texts ->
  (Kind p =? reflect.Slice)%N = true ->
  exists t, resolveHeaderTemplate texts p = inl t
            /\ forall w, snd (Execute t (DataSliceHeader w)) = None.
Proof.
  intros (_ & Hslice & _) Hs. unfold resolveHeaderTemplate.
  apply N.eqb_eq in Hs. rewrite Hs.
  cbn [N.eqb Pos.eqb reflect.Slice reflect.String].
  destruct (InReg (Loc p)); apply Hslice; cbn; tauto.
Qed.

Lemma resolveHeaderTemplate_string_ok (p : Param) :
  headerTemplatesRender texts ->
  (Kind p =? reflect.String)%N = true ->
  exists t, resolveHeaderTemplate texts p = inl t
            /\ forall w, snd (Execute t (DataStringHeader w)) = None.
Proof.
  intros (_ & _ & Hstring) Hstr. unfold resolveHeaderTemplate. rewrite Hstr.
  destruct (InReg (Loc p)); apply Hstring; cbn; tauto.
Qed.

Lemma generateSliceLengthHeader_ok (piece : Param) (buf : Buffer) :
  headerTemplatesRender texts ->
  snd (generateSliceLengthHeader texts piece buf) = None.
Proof.
  intros (Hparam & _ & _). unfold generateSliceLengthHeader.
  destruct (InReg (Loc piece));
    [destruct (Hparam "slice_register_length_header"
                 (sliceLengthRegisterTemplateText texts)) as (t & -> & Hex)
    |destruct (Hparam "slice_stack_length_header"
                 (sliceLengthStackTemplateText texts)) as (t & -> & Hex)];
    try (cbn; tauto);
    unfold ExecuteTo; specialize (Hex piece);
    destruct (Execute t (DataParameter piece)); exact Hex.
Qed.

Lemma generateStringLengthHeader_ok (piece : Param) (buf : Buffer) :
  headerTemplatesRender texts ->
  snd (generateStringLengthHeader texts piece buf) = None.
Proof.
  intros (Hparam & _ & _). unfold generateStringLengthHeader.
  destruct (InReg (Loc piece));
    [destruct (Hparam "string_register_length_header"
                 (stringLengthRegisterTemplateText texts)) as (t & -> & Hex)
    |destruct (Hparam "string_stack_length_header"
                 (stringLengthStackTemplateText texts)) as (t & -> & Hex)];
    try (cbn; tauto);
    unfold ExecuteTo; specialize (Hex piece);
    destruct (Execute t (DataParameter piece)); exact Hex.
Qed.

Lemma ok_of_headerWellFormed (p : Param) :
  headerTemplatesRender texts ->
  headerWellFormed p = true -> snd (generateHeaderText texts p "") = None.
Proof.
  intros Hrender.
  induction p as [name type kind loc reason pieces IH] using Param_tree_ind.
  cbn [headerWellFormed].
  set (param := mkParameter name type kind loc reason pieces).
  destruct (kind =? reflect.Slice)%N eqn:Hs.
  { destruct pieces as [|a [|b [|c l]]]; try discriminate. intros Hwf.
    rewrite generateHeaderText_eq. cbn [Kind param]. rewrite Hs.
    unfold generateSliceHeader, generateSliceHeader_with.
    cbn [ParameterPieces param].
    inversion IH as [|? ? IHa _]. specialize (IHa Hwf).
    destruct (generateHeaderText texts a "") as [typeText [e|]];
      [discriminate IHa|].
    pose proof (generateSliceLengthHeader_ok b "" Hrender) as Hb.
    destruct (generateSliceLengthHeader texts b "") as [lengthText [e|]];
      [discriminate Hb|].
    destruct (resolveHeaderTemplate_slice_ok param Hrender Hs) as (t & -> & Hex).
    unfold ExecuteTo.
    match goal with
    | |- context [Execute t (DataSliceHeader ?w)] =>
        specialize (Hex w); destruct (Execute t (DataSliceHeader w)) as [written [e|]]
    end; [discriminate Hex | reflexivity]. }
  destruct (kind =? reflect.String)%N eqn:Hstr.
  { destruct pieces as [|a [|b [|c l]]]; try discriminate. intros _.
    rewrite generateHeaderText_eq. cbn [Kind param]. rewrite Hs, Hstr.
    unfold generateStringHeader. cbn [ParameterPieces param].
    pose proof (generateStringLengthHeader_ok b "" Hrender) as Hb.
    destruct (generateStringLengthHeader texts b "") as [lengthText [e|]];
      [discriminate Hb|].
    destruct (resolveHeaderTemplate_string_ok param Hrender Hstr)
      as (t & -> & Hex).
    unfold ExecuteTo.
    match goal with
    | |- context [Execute t (DataStringHeader ?w)] =>
        specialize (Hex w); destruct (Execute t (DataStringHeader w)) as [written [e|]]
    end; [discriminate Hex | reflexivity]. }
  intros Hwf. rewrite (generateHeaderText_plain texts param "" Hs Hstr).
  destruct (resolveHeaderTemplate_default_ok param Hrender Hstr Hs)
    as (t & -> & Hex).
  unfold ExecuteTo. specialize (Hex param).
  destruct (Execute t (DataParameter param)) as [written [e|]];
    [discriminate Hex|].
  cbn [ParameterPieces param]. rewrite generateHeadersText_ok_iff.
  rewrite forallb_forall in Hwf. rewrite Forall_forall in IH |- *.
  intros q Hq. exact (IH q Hq (Hwf q Hq)).
Qed.

(** When the header templates of the package parse and execute without
    error on the data the header generator gives them, header generation
    returns no error exactly on the trees without malformed strings or
    slices on its walk. *)
Theorem generateHeaderText_ok_iff_wellFormed (p : Param) (out : Buffer) :
  headerTemplatesRender texts ->
  snd (generateHeaderText texts p out) = None <-> headerWellFormed p = true.
Proof.
  intros Hrender. rewrite (generateHeaderText_append texts p out). cbn [snd].
  split; [apply headerWellFormed_of_ok | apply ok_of_headerWellFormed, Hrender].
Qed.

(** The template the body resolver parses is one of the body templates. *)
Lemma resolveParameterTemplate_in_bodyTemplates (p : Param) :
  exists name text,
    In (name, text) (bodyTemplates texts)
    /\ resolveParameterTemplate texts p = Parse name text.
Proof.
  unfold resolveParameterTemplate, resolveRegisterParameterTemplate,
    resolveStackParameterTemplate, bodyTemplates. cbv zeta.
  destruct (NotCaptureReason_eqb (Reason p) Unsupported);
    [do 2 eexists; split; [|reflexivity]; cbn; tauto|].
  destruct (NotCaptureReason_eqb (Reason p) FieldLimitReached);
    [do 2 eexists; split; [|reflexivity]; cbn; tauto|].
  destruct (InReg (Loc p));
    (destruct (NeedsDereference (Loc p));
       [do 2 eexists; split; [|reflexivity]; cbn; tauto|]);
    (destruct (Kind p =? reflect.String)%N;
       [do 2 eexists; split; [|reflexivity]; cbn; tauto|]);
    (destruct (Kind p =? reflect.Slice)%N;
       [do 2 eexists; split; [|reflexivity]; cbn; tauto|]);
    cbn [negb]; do 2 eexists; (split; [|reflexivity]); cbn; tauto.
Qed.

Lemma generateParametersText_ok (params : list Param) (out : Buffer) :
  bodyTemplatesRender texts ->
  snd (generateParametersText texts params out) = None.
Proof.
  intros Hrender. revert out. induction params as [|p rest IH]; intros out;
    cbn [generateParametersText]; [reflexivity|].
  assert (Hp : snd (generateParameterText texts p out) = None).
  { unfold generateParameterText. destruct (_ || _); [reflexivity|].
    destruct (resolveParameterTemplate_in_bodyTemplates p)
      as (name & text & Hin & ->).
    destruct (Hrender name text Hin) as (t & -> & Hex).
    unfold ExecuteTo.
    match goal with
    | |- context [Execute t (DataParameter ?q)] =>
        specialize (Hex q); destruct (Execute t (DataParameter q)) as [written [e|]]
    end; [discriminate Hex | reflexivity]. }
  destruct (generateParameterText texts p out) as [[p' out'] [e|]];
    [discriminate Hp|].
  specialize (IH out').
  destruct (generateParametersText texts rest out') as [[rest' out''] err].
  exact IH.
Qed.

(** When the body templates of the package parse and execute without error
    on parameters, body generation of a list never fails: the body
    generator has no error of its own, not even on a malformed string or
    slice. *)
Theorem generateParametersText_never_fails (params : list Param) (out : Buffer) :
  bodyTemplatesRender texts ->
  snd (generateParametersText texts params out) = None.
Proof. apply generateParametersText_ok. Qed.

End TemplatesRender.

(** ** The entry point *)

(** Within one top-level parameter all header text comes before all body
    text: when the headers of its flattening are generated without error,
    the fragment is those headers followed by the bodies of the same list,
    and the error is that of the bodies. *)
Theorem generateTopLevel_headers_then_bodies (p : Param) (out : Buffer) :
  let flattened := flattenParameters [p] in
  snd (generateHeadersText texts flattened "") = None ->
  generateTopLevel texts flattenParameters p out
  = (out ++ fst (generateHeadersText texts flattened "")
         ++ snd (fst (generateParametersText texts flattened "")),
     snd (generateParametersText texts flattened "")).
Proof.
  intros flattened Hh. unfold generateTopLevel. fold flattened.
  rewrite (generateHeadersText_appendOnly texts flattened out).
  destruct (generateHeadersText texts flattened "") as [headers [e|]];
    [discriminate Hh|]. cbn [fst snd].
  rewrite (generateParametersText_append texts flattened (out ++ headers)).
  destruct (generateParametersText texts flattened "") as [[ps bodies] err].
  cbn [fst snd]. now rewrite append_assoc.
Qed.

(** The text of a run over top-level parameters that all succeed. *)
Lemma generateAllTopLevel_ok (params : list Param) (out : Buffer) :
  Forall (fun p => snd (generateTopLevel texts flattenParameters p "") = None)
         params ->
  generateAllTopLevel texts flattenParameters params out
  = (out ++ fold_right append ""
              (map (fun p => fst (generateTopLevel texts flattenParameters p ""))
                   params),
     None).
Proof.
  intros Hall. revert out. induction Hall as [|p rest Hp _ IH]; intros out;
    cbn [generateAllTopLevel map fold_right].
  - now rewrite append_empty_r.
  - rewrite (generateTopLevel_append texts flattenParameters p out), Hp.
    rewrite IH. now rewrite append_assoc.
Qed.

(** The run over the top-level parameters returns no error exactly when
    each of them does. *)
Lemma generateAllTopLevel_ok_iff (params : list Param) (out : Buffer) :
  snd (generateAllTopLevel texts flattenParameters params out) = None <->
  Forall (fun p => snd (generateTopLevel texts flattenParameters p "") = None)
         params.
Proof.
  split; [|intros H; now rewrite (generateAllTopLevel_ok params out H)].
  revert out. induction params as [|p rest IH]; intros out;
    cbn [generateAllTopLevel]; [constructor|].
  rewrite (generateTopLevel_append texts flattenParameters p out).
  destruct (generateTopLevel texts flattenParameters p "") as [written [e|]]
    eqn:Hp; cbn [fst snd]; [discriminate|].
  intros H. constructor; [now rewrite Hp | exact (IH _ H)].
Qed.

(** When generation succeeds for every top-level parameter, the text stored
    on the probe is the fragments of the parameters, one after the other in
    argument order, each generated as on an empty buffer; the text the probe
    held before is replaced, and the log is as it was. *)
Theorem GenerateBPFParamsCode_success
  (procInfo : ProcessInfo) (probe : Probe) (logged : list LogEntry) :
  let options := InstrumentationOptions_ (InstrumentationInfo_ probe) in
  let params :=
    applyFieldCountLimit
      (applyCaptureDepth (map_index (Functions (TypeMap_ procInfo)) (FuncName probe))
                         (MaxReferenceDepth options)) in
  CaptureParameters options = true ->
  Forall (fun p => snd (generateTopLevel texts flattenParameters p "") = None)
         params ->
  GenerateBPFParamsCode texts applyCaptureDepth applyFieldCountLimit
    flattenParameters procInfo probe logged
  = (set_BPFParametersSourceCode probe
       (fold_right append ""
          (map (fun p => fst (generateTopLevel texts flattenParameters p ""))
               params)),
     logged, None).
Proof.
  intros options params Hc Hall. unfold GenerateBPFParamsCode.
  fold options. rewrite Hc. fold params.
  now rewrite (generateAllTopLevel_ok params "" Hall).
Qed.

(** The fields of the probe other than the stored text are never changed,
    and the log grows by at most the one note of the disabled mode. *)
Lemma GenerateBPFParamsCode_keeps_probe_fields
  (procInfo : ProcessInfo) (probe : Probe) (logged : list LogEntry) :
  let '(probe', logged', _) :=
    GenerateBPFParamsCode texts applyCaptureDepth applyFieldCountLimit
      flattenParameters procInfo probe logged in
  FuncName probe' = FuncName probe
  /\ InstrumentationOptions_ (InstrumentationInfo_ probe')
     = InstrumentationOptions_ (InstrumentationInfo_ probe)
  /\ (logged' = logged
      \/ logged' = (logged ++ [mkLogEntry InfoLvl "Not capturing parameters"])%list).
Proof.
  unfold GenerateBPFParamsCode.
  destruct (CaptureParameters _).
  - destruct (generateAllTopLevel _ _ _ _) as [out [e|]];
      repeat split; now left.
  - repeat split. now right.
Qed.

Section EndToEnd.

Hypothesis Hheaders : headerTemplatesRender texts.
Hypothesis Hbodies : bodyTemplatesRender texts.

Lemma generateTopLevel_ok_iff (p : Param) :
  snd (generateTopLevel texts flattenParameters p "") = None <->
  forallb headerWellFormed (flattenParameters [p]) = true.
Proof.
  unfold generateTopLevel.
  pose proof (generateHeadersText_ok_iff (flattenParameters [p]) "") as Hh.
  pose proof (fun out =>
    generateParametersText_ok (flattenParameters [p]) out Hbodies) as Hb.
  rewrite forallb_forall.
  destruct (generateHeadersText texts (flattenParameters [p]) "")
    as [headers [e|]]; cbn [snd] in *.
  - split; [discriminate|]. intros Hwf.
    assert (Hall : Forall (fun q => snd (generateHeaderText texts q "") = None)
                     (flattenParameters [p])).
    { apply Forall_forall. intros q Hq.
      apply (ok_of_headerWellFormed q Hheaders), Hwf, Hq. }
    apply Hh in Hall. discriminate Hall.
  - specialize (Hb headers).
    destruct (generateParametersText texts (flattenParameters [p]) headers)
      as [[ps bodies] err]. cbn [snd] in *. subst err.
    split; [|reflexivity]. intros _ q Hq.
    apply headerWellFormed_of_ok.
    pose proof (proj1 Hh eq_refl) as Hall. rewrite Forall_forall in Hall.
    exact (Hall q Hq).
Qed.

(** When the header and body templates of the package parse and execute
    without error on the data the generators give them, a call with
    capture on returns no error exactly when the flattening of every
    top-level parameter holds only trees without malformed strings or
    slices on the walk of the header generator: malformed trees are the
    only source of failure left. *)
Theorem GenerateBPFParamsCode_ok_iff_wellFormed
  (procInfo : ProcessInfo) (probe : Probe) (logged : list LogEntry) :
  let options := InstrumentationOptions_ (InstrumentationInfo_ probe) in
  let params :=
    applyFieldCountLimit
      (applyCaptureDepth (map_index (Functions (TypeMap_ procInfo)) (FuncName probe))
                         (MaxReferenceDepth options)) in
  CaptureParameters options = true ->
  snd (GenerateBPFParamsCode texts applyCaptureDepth applyFieldCountLimit
         flattenParameters procInfo probe logged) = None
  <-> Forall (fun p => forallb headerWellFormed (flattenParameters [p]) = true)
             params.
Proof.
  intros options params Hc. unfold GenerateBPFParamsCode.
  fold options. rewrite Hc. fold params.
  pose proof (generateAllTopLevel_ok_iff params "") as Hall.
  assert (Hwf :
    Forall (fun p => snd (generateTopLevel texts flattenParameters p "") = None)
           params
    <-> Forall (fun p => forallb headerWellFormed (flattenParameters [p]) = true)
               params).
  { rewrite !Forall_forall. split; intros H p Hp;
      apply generateTopLevel_ok_iff, H, Hp. }
  rewrite <- Hwf, <- Hall.
  destruct (generateAllTopLevel texts flattenParameters params "")
    as [out [e|]]; cbn [snd]; split; intros H; try discriminate H; reflexivity.
Qed.

End EndToEnd.

End Generators.

(** * The further properties on concrete parameters *)

Section GeneratorExamples.

Import Example.

Lemma headers_render : headerTemplatesRender texts.
Proof.
  repeat split; intros name text Hin; exists (name, text); split; reflexivity.
Defined.

Lemma bodies_render : bodyTemplatesRender texts.
Proof.
  intros name text Hin. exists (name, text). split; reflexivity.
Defined.

(** A struct with a string field and an int field. *)
Definition widget : Param :=
  mkParameter "w" "Widget" reflect.Struct onStack NoReason
    [goodString; intParam "n"].

Lemma generateHeaderText_self_then_pieces_witness :
  generateHeaderText texts widget "so far;"
  = ("so far;header(Widget w)string_reg_header(s len string_reg_len(int len))header(int n)",
     None).
Proof.
  exact (@generateHeaderText_self_then_pieces engine texts widget "so far;"
           "header(Widget w)" ("header_template", "header")
           ltac:(discriminate) ltac:(discriminate) eq_refl eq_refl).
Defined.

Lemma generateHeaderText_string_witness :
  generateHeaderText texts goodString "so far;"
  = ("so far;string_reg_header(s len string_reg_len(int len))", None).
Proof.
  exact (@generateHeaderText_string engine texts goodString
           (mkParameter "data" "*uint8" reflect.Pointer inRegister NoReason [])
           (intParam "len") "so far;" "string_reg_len(int len)"
           ("string_register_length_header", "string_reg_len")
           ("string_reg_header_template", "string_reg_header")
           eq_refl eq_refl eq_refl eq_refl eq_refl).
Defined.

Lemma generateHeaderText_failure_keeps_buffer_witness :
  "so far;" = "so far;"
  \/ exists inner,
       errorString
         "invalid string parameter when generating header code (pieces len 0)"
       = wrapError
           (if (Kind sliceOfEmptyString =? reflect.Slice)%N
            then "could not execute template for generating slice header: "
            else "could not execute template for generating string header: ")
           inner.
Proof.
  exact (@generateHeaderText_failure_keeps_buffer engine texts
           sliceOfEmptyString "so far;" "so far;" _
           (or_intror eq_refl) eq_refl).
Defined.

Lemma generateParametersText_success_params_witness :
  [set_Type pointerTyped "Widget"; vetoedStruct]
  = map afterRead [pointerTyped; vetoedStruct].
Proof.
  exact (@generateParametersText_success_params engine texts
           [pointerTyped; vetoedStruct] _ "" _ eq_refl).
Defined.

Lemma generateParameterText_star_label_witness :
  snd (fst (generateParameterText texts (set_Type pointerTyped "*Widget") ""))
  = snd (fst (generateParameterText texts (set_Type pointerTyped "Widget") ""))
  /\ snd (generateParameterText texts (set_Type pointerTyped "*Widget") "")
     = snd (generateParameterText texts (set_Type pointerTyped "Widget") "").
Proof.
  exact (@generateParameterText_star_label engine texts pointerTyped "Widget" ""
           eq_refl).
Defined.

Lemma generateHeaderText_ok_wellFormed_witness :
  headerWellFormed widget = true.
Proof.
  exact (@generateHeaderText_ok_wellFormed engine texts widget "" eq_refl).
Defined.

Lemma generateHeaderText_ok_iff_wellFormed_witness :
  (snd (generateHeaderText texts widget "so far;") = None
   <-> headerWellFormed widget = true)
  /\ snd (generateHeaderText texts widget "so far;") = None
  /\ (snd (generateHeaderText texts sliceOfEmptyString "") = None
      <-> headerWellFormed sliceOfEmptyString = true)
  /\ headerWellFormed sliceOfEmptyString = false.
Proof.
  split; [|split; [|split]].
  - exact (@generateHeaderText_ok_iff_wellFormed engine texts widget "so far;"
             headers_render).
  - exact (proj2 (@generateHeaderText_ok_iff_wellFormed engine texts widget
                    "so far;" headers_render) eq_refl).
  - exact (@generateHeaderText_ok_iff_wellFormed engine texts
             sliceOfEmptyString "" headers_render).
  - reflexivity.
Defined.

Lemma generateParametersText_never_fails_witness :
  snd (generateParametersText texts [sliceOfEmptyString; vetoedInt; widget] "")
  = None.
Proof.
  exact (@generateParametersText_never_fails engine texts
           [sliceOfEmptyString; vetoedInt; widget] "" bodies_render).
Defined.

Lemma generateTopLevel_headers_then_bodies_witness :
  generateTopLevel texts flattenParameters goodSlice "so far;"
  = ("so far;"
       ++ "slice_stack_header(xs of header(int elem) len slice_reg_len(int len))"
       ++ "slice_stack([]int xs)",
     None).
Proof.
  exact (@generateTopLevel_headers_then_bodies engine texts flattenParameters
           goodSlice "so far;" eq_refl).
Defined.

Lemma GenerateBPFParamsCode_success_witness :
  run [goodString; vetoedInt] true
  = (set_BPFParametersSourceCode (probe true)
       ("string_reg_header(s len string_reg_len(int len))string_reg(string s)"
        ++ "header(int n)cut(int n)"),
     [], None).
Proof.
  apply (@GenerateBPFParamsCode_success engine texts applyCaptureDepth
           applyFieldCountLimit flattenParameters
           (procInfo [goodString; vetoedInt]) (probe true) []);
    [reflexivity | repeat constructor].
Defined.

Lemma GenerateBPFParamsCode_ok_iff_wellFormed_witness :
  (snd (run [goodString; widget] true) = None
   <-> Forall (fun p => forallb headerWellFormed (flattenParameters [p]) = true)
              [goodString; widget])
  /\ snd (run [goodString; widget] true) = None
  /\ (snd (run [goodString; sliceOfEmptyString] true) = None
      <-> Forall (fun p => forallb headerWellFormed (flattenParameters [p]) = true)
                 [goodString; sliceOfEmptyString])
  /\ snd (run [goodString; sliceOfEmptyString] true) <> None.
Proof.
  split; [|split; [|split]].
  - exact (@GenerateBPFParamsCode_ok_iff_wellFormed engine texts
             applyCaptureDepth applyFieldCountLimit flattenParameters
             headers_render bodies_render
             (procInfo [goodString; widget]) (probe true) [] eq_refl).
  - apply (proj2 (@GenerateBPFParamsCode_ok_iff_wellFormed engine texts
                    applyCaptureDepth applyFieldCountLimit flattenParameters
                    headers_render bodies_render
                    (procInfo [goodString; widget]) (probe true) [] eq_refl)).
    repeat constructor.
  - exact (@GenerateBPFParamsCode_ok_iff_wellFormed engine texts
             applyCaptureDepth applyFieldCountLimit flattenParameters
             headers_render bodies_render
             (procInfo [goodString; sliceOfEmptyString]) (probe true) []
             eq_refl).
  - discriminate.
Defined.

End GeneratorExamples.

(** * Properties of the system-probe client *)

Section ClientProperties.

Import net.

Context {transport : Transport} {encoding : Encoding} {runtime : Runtime}.
Variable urls : Endpoints.
Variable DurationString : Z -> string.

(** With a length of zero or less the body is read as it comes: what was
    read is returned, with the error if the reading failed.  With a
    positive length the buffer is grown first: when that panics nothing is
    read and the call panics with the same value; when it does not, a
    reading that reaches the end returns all the bytes, whatever the length
    announced, and a reading that fails returns the error and no bytes. *)
Theorem readAllResponseBody_result (resp : Response) :
  ((ContentLength resp <= 0)%Z ->
     readAllResponseBody resp = Returns (Body resp))
  /\ (forall value,
        (0 < ContentLength resp)%Z ->
        Buffer_Grow (ContentLength resp) = Some value ->
        readAllResponseBody resp = Panics value)
  /\ (forall data,
        (0 < ContentLength resp)%Z ->
        Buffer_Grow (ContentLength resp) = None ->
        Body resp = (data, None) ->
        readAllResponseBody resp = Returns (data, None))
  /\ (forall data e,
        (0 < ContentLength resp)%Z ->
        Buffer_Grow (ContentLength resp) = None ->
        Body resp = (data, Some e) ->
        readAllResponseBody resp = Returns ([], Some e)).
Proof.
  unfold readAllResponseBody. repeat split.
  - intros H. apply Z.leb_le in H. now rewrite H.
  - intros value H Hg. apply Z.leb_gt in H. now rewrite H, Hg.
  - intros data H Hg Hb. apply Z.leb_gt in H. now rewrite H, Hg, Hb.
  - intros data e H Hg Hb. apply Z.leb_gt in H. now rewrite H, Hg, Hb.
Qed.

(** A reading gives the whole body, or fails, or panics before it starts. *)
Lemma readAllResponseBody_cases (resp : Response) :
  (exists data, Body resp = (data, None)
                /\ readAllResponseBody resp = Returns (data, None))
  \/ (exists data e, readAllResponseBody resp = Returns (data, Some e))
  \/ (exists value, (0 < ContentLength resp)%Z
                    /\ Buffer_Grow (ContentLength resp) = Some value
                    /\ readAllResponseBody resp = Panics value).
Proof.
  unfold readAllResponseBody.
  destruct (ContentLength resp <=? 0)%Z eqn:Hlen.
  - destruct (Body resp) as [data [e|]]; eauto.
  - apply Z.leb_gt in Hlen.
    destruct (Buffer_Grow (ContentLength resp)) as [value|]; [eauto 8|].
    destruct (Body resp) as [data [e|]]; eauto.
Qed.

(** The timeout of the traceroute request does not wrap around for a
    per-hop timeout of up to 36170086379822650 ns (about 418 days): it is
    the per-hop timeout times the number of hops plus ten seconds, and is
    never below ten seconds.  The bound is sharp: one nanosecond more, with
    255 hops, wraps around to a negative timeout. *)
Theorem httpTimeout_exact (timeout maxTTL : Z) :
  (0 <= timeout <= 36170086379822650)%Z ->
  (0 <= maxTTL <= 255)%Z ->
  (httpTimeout timeout maxTTL = timeout * maxTTL + 10 * time.Second
   /\ 10 * time.Second <= httpTimeout timeout maxTTL
   /\ httpTimeout 36170086379822651 255 < 0)%Z.
Proof.
  intros Ht Hm.
  assert (Hsharp : (httpTimeout 36170086379822651 255 < 0)%Z) by reflexivity.
  revert Hsharp. unfold httpTimeout, wrap64, time.Second. intros Hsharp.
  assert (Hprod : (0 <= timeout * maxTTL <= 36170086379822650 * 255)%Z) by nia.
  change (2 ^ 63)%Z with 9223372036854775808%Z.
  change (2 ^ 64)%Z with 18446744073709551616%Z.
  rewrite (Z.mod_small (timeout * maxTTL + 9223372036854775808)) by lia.
  replace (timeout * maxTTL + 9223372036854775808 - 9223372036854775808)%Z
    with (timeout * maxTTL)%Z by lia.
  rewrite Z.mod_small by lia. repeat split; solve [lia | exact Hsharp].
Qed.

(** ** Data comes only with status 200 *)

(** Split on what reading the body of [resp] gives, naming the three
    cases. *)
Ltac read_body resp :=
  destruct (readAllResponseBody_cases resp)
    as [(?data & ?Hbody & ->) | [(?data & ?e & ->)
                                | (?value & ?Hlen & ?Hgrow & ->)]].

(** [GetPing] returns bytes only when the request could be built and sent,
    the answer has status 200 and its body was read to the end, and then
    the bytes are that body; whenever it returns an error it returns no
    bytes, not even those read before a failure.  It panics only when an
    answer announces a positive length to which the buffer cannot grow. *)
Theorem GetPing_data_only_on_200
  (r : RemoteSysProbeUtil) (clientID host : string) (count interval timeout : Z) :
  match GetPing urls r clientID host count interval timeout with
  | Returns (data, None) =>
      exists req resp,
        NewRequest "GET"
          (pingURL urls ++ "/" ++ host ++ "?client_id=" ++ clientID
           ++ "&count=" ++ fmt_dZ count ++ "&interval=" ++ fmt_dZ interval
           ++ "&timeout=" ++ fmt_dZ timeout) None = inl req
        /\ Do (httpClient r) (Header_Set req "Accept" "application/json")
           = inl resp
        /\ StatusCode resp = 200%Z
        /\ Body resp = (data, None)
  | Returns (data, Some _) => data = []
  | Panics value =>
      exists req resp,
        Do (httpClient r) (Header_Set req "Accept" "application/json")
        = inl resp
        /\ (0 < ContentLength resp)%Z
        /\ Buffer_Grow (ContentLength resp) = Some value
  end.
Proof.
  unfold GetPing.
  destruct (NewRequest _ _ _) as [req|e]; [|reflexivity].
  cbv zeta. unfold contentTypeJSON.
  destruct (Do _ _) as [resp|e] eqn:Hdo; [|reflexivity].
  destruct (StatusCode resp =? http.StatusBadRequest)%Z.
  { read_body resp; try reflexivity. exists req, resp. auto. }
  destruct (StatusCode resp =? http.StatusOK)%Z eqn:Hok; cbn [negb];
    [|reflexivity].
  apply Z.eqb_eq in Hok.
  read_body resp; try reflexivity; exists req, resp; auto.
Qed.

(** [GetTraceroute] does the same through the traceroute client, with a
    request whose context has the computed timeout; and whatever the
    outcome, a panic included, it has logged exactly one trace line. *)
Theorem GetTraceroute_data_only_on_200
  (r : RemoteSysProbeUtil) (clientID host : string) (port : Z)
  (protocol : string) (maxTTL timeout : Z) (logged : list LogEntry) :
  let '(outcome, logged') :=
    GetTraceroute urls DurationString r clientID host port protocol maxTTL
      timeout logged in
  logged' = (logged ++ [mkLogEntry TraceLvl
               ("Network Path traceroute HTTP request timeout: "
                ++ DurationString (httpTimeout timeout maxTTL))])%list
  /\ match outcome with
     | Returns (data, None) =>
         exists req resp,
           NewRequestWithContext (httpTimeout timeout maxTTL) "GET"
             (tracerouteURL urls ++ "/" ++ host ++ "?client_id=" ++ clientID
              ++ "&port=" ++ fmt_dZ port ++ "&max_ttl=" ++ fmt_dZ maxTTL
              ++ "&timeout=" ++ fmt_dZ timeout ++ "&protocol=" ++ protocol)
             None = inl req
           /\ Do (tracerouteClient r) (Header_Set req "Accept" "application/json")
              = inl resp
           /\ StatusCode resp = 200%Z
           /\ Body resp = (data, None)
     | Returns (data, Some _) => data = []
     | Panics value =>
         exists req resp,
           Do (tracerouteClient r) (Header_Set req "Accept" "application/json")
           = inl resp
           /\ (0 < ContentLength resp)%Z
           /\ Buffer_Grow (ContentLength resp) = Some value
     end.
Proof.
  unfold GetTraceroute. cbv zeta.
  destruct (NewRequestWithContext _ _ _ _) as [req|e]; [|split; reflexivity].
  unfold contentTypeJSON.
  destruct (Do _ _) as [resp|e] eqn:Hdo; [|split; reflexivity].
  split; [reflexivity|].
  destruct (StatusCode resp =? http.StatusBadRequest)%Z.
  { read_body resp; try reflexivity. exists req, resp. auto. }
  destruct (StatusCode resp =? http.StatusOK)%Z eqn:Hok; cbn [negb];
    [|reflexivity].
  apply Z.eqb_eq in Hok.
  read_body resp; try reflexivity; exists req, resp; auto.
Qed.

(** [GetNetworkID] returns an identifier only for an answer with status 200
    whose body was read to the end, and then it is that body as a string;
    with an error the identifier is empty.  It panics only when an answer
    with status 200 announces a positive length to which the buffer cannot
    grow. *)
Theorem GetNetworkID_only_on_200 (r : RemoteSysProbeUtil) :
  match GetNetworkID urls r with
  | Returns (id, None) =>
      exists req resp body,
        NewRequest "GET" (networkIDURL urls) None = inl req
        /\ Do (httpClient r) (Header_Set req "Accept" "text/plain") = inl resp
        /\ StatusCode resp = 200%Z
        /\ Body resp = (body, None)
        /\ id = string_of_bytes body
  | Returns (id, Some _) => id = ""
  | Panics value =>
      exists req resp,
        Do (httpClient r) (Header_Set req "Accept" "text/plain") = inl resp
        /\ StatusCode resp = 200%Z
        /\ (0 < ContentLength resp)%Z
        /\ Buffer_Grow (ContentLength resp) = Some value
  end.
Proof.
  unfold GetNetworkID.
  destruct (NewRequest _ _ _) as [req|e]; [|reflexivity].
  cbv zeta.
  destruct (Do _ _) as [resp|e] eqn:Hdo; [|reflexivity].
  destruct (StatusCode resp =? http.StatusOK)%Z eqn:Hok; cbn [negb];
    [|reflexivity].
  apply Z.eqb_eq in Hok.
  read_body resp; try reflexivity.
  - exists req, resp, data. auto.
  - exists req, resp. auto.
Qed.

(** [GetConnections] returns exactly one of a value and an error; a value
    comes only from an answer with status 200 whose body was read to the
    end, decoded by the unmarshaler of the answer's [Content-type].  It
    panics only when an answer with status 200 announces a positive length
    to which the buffer cannot grow. *)
Theorem GetConnections_only_on_200 (r : RemoteSysProbeUtil) (clientID : string) :
  match GetConnections urls r clientID with
  | Returns (Some conns, None) =>
      exists req resp body,
        NewRequest "GET" (connectionsURL urls ++ "?client_id=" ++ clientID) None
        = inl req
        /\ Do (httpClient r) (Header_Set req "Accept" "application/protobuf")
           = inl resp
        /\ StatusCode resp = 200%Z
        /\ Body resp = (body, None)
        /\ UnmarshalConnections (Header_Get resp "Content-type") body = inl conns
  | Returns (None, Some _) => True
  | Returns _ => False
  | Panics value =>
      exists req resp,
        Do (httpClient r) (Header_Set req "Accept" "application/protobuf")
        = inl resp
        /\ StatusCode resp = 200%Z
        /\ (0 < ContentLength resp)%Z
        /\ Buffer_Grow (ContentLength resp) = Some value
  end.
Proof.
  unfold GetConnections.
  destruct (NewRequest _ _ _) as [req|e]; [|exact I].
  cbv zeta. unfold contentTypeProtobuf.
  destruct (Do _ _) as [resp|e] eqn:Hdo; [|exact I].
  destruct (StatusCode resp =? http.StatusOK)%Z eqn:Hok; cbn [negb];
    [|exact I].
  apply Z.eqb_eq in Hok.
  read_body resp; try exact I.
  - destruct (UnmarshalConnections _ data) as [conns|e] eqn:Hun; [|exact I].
    exists req, resp, data. auto.
  - exists req, resp. auto.
Qed.

(** [GetProcStats] returns exactly one of a value and an error; a value
    comes only when the request for the given pids was marshalled and
    posted, and the answer has status 200 and a body read to the end,
    decoded by the unmarshaler of the answer's [Content-type].  It panics
    only when an answer with status 200 announces a positive length to
    which the buffer cannot grow. *)
Theorem GetProcStats_only_on_200 (r : RemoteSysProbeUtil) (pids : list Z) :
  match GetProcStats urls r pids with
  | Returns (Some results, None) =>
      exists reqBody req resp body,
        MarshalProcessStatRequest pids = inl reqBody
        /\ NewRequest "POST" (procStatsURL urls) (Some reqBody) = inl req
        /\ Do (httpClient r)
              (Header_Set (Header_Set req "Accept" "application/protobuf")
                 "Content-Type" (procEncoding_ContentTypeProtobuf urls))
           = inl resp
        /\ StatusCode resp = 200%Z
        /\ Body resp = (body, None)
        /\ UnmarshalProcStats (Header_Get resp "Content-type") body = inl results
  | Returns (None, Some _) => True
  | Returns _ => False
  | Panics value =>
      exists req resp,
        Do (httpClient r)
           (Header_Set (Header_Set req "Accept" "application/protobuf")
              "Content-Type" (procEncoding_ContentTypeProtobuf urls))
        = inl resp
        /\ StatusCode resp = 200%Z
        /\ (0 < ContentLength resp)%Z
        /\ Buffer_Grow (ContentLength resp) = Some value
  end.
Proof.
  unfold GetProcStats.
  destruct (MarshalProcessStatRequest pids) as [reqBody|e] eqn:Hm; [|exact I].
  destruct (NewRequest _ _ _) as [req|e] eqn:Hreq; [|exact I].
  cbv zeta. unfold contentTypeProtobuf.
  destruct (Do _ _) as [resp|e] eqn:Hdo; [|exact I].
  destruct (StatusCode resp =? http.StatusOK)%Z eqn:Hok; cbn [negb];
    [|exact I].
  apply Z.eqb_eq in Hok.
  read_body resp; try exact I.
  - destruct (UnmarshalProcStats _ data) as [results|e] eqn:Hun; [|exact I].
    exists reqBody, req, resp, data. auto 7.
  - exists req, resp. auto.
Qed.

(** [Register] and [init] succeed exactly when their request is answered
    with status 200; neither reads the body of the answer. *)
Theorem Register_init_ok_iff (r : RemoteSysProbeUtil) (clientID : string) :
  (Register urls r clientID = None <->
   exists req resp,
     NewRequest "GET" (registerURL urls ++ "?client_id=" ++ clientID) None
     = inl req
     /\ Do (httpClient r) req = inl resp
     /\ StatusCode resp = 200%Z)
  /\ (init urls r = None <->
      exists resp,
        Client_Get (httpClient r) (statsURL urls) = inl resp
        /\ StatusCode resp = 200%Z).
Proof.
  unfold Register, init. split.
  - destruct (NewRequest _ _ _) as [req|e].
    + destruct (Do (httpClient r) req) as [resp|e] eqn:Hdo.
      * destruct (StatusCode resp =? http.StatusOK)%Z eqn:Hok; cbn [negb].
        -- apply Z.eqb_eq in Hok. split; [|reflexivity].
           intros _. exists req, resp. repeat split; assumption.
        -- apply Z.eqb_neq in Hok. split; [discriminate|].
           intros (req' & resp' & [= <-] & H & Hcode).
           rewrite Hdo in H. injection H as <-. now elim Hok.
      * split; [discriminate|]. intros (req' & resp' & [= <-] & H & _).
        rewrite Hdo in H. discriminate H.
    + split; [discriminate|]. intros (req' & resp' & H & _). discriminate H.
  - destruct (Client_Get _ _) as [resp|e].
    + destruct (StatusCode resp =? http.StatusOK)%Z eqn:Hok; cbn [negb].
      * apply Z.eqb_eq in Hok. split; [|reflexivity]. intros _.
        exists resp. split; [reflexivity | assumption].
      * apply Z.eqb_neq in Hok. split; [discriminate|].
        intros (resp' & [= <-] & H). now elim Hok.
    + split; [discriminate|]. intros (resp' & H & _). discriminate H.
Qed.

(** ** Answers with another status *)

(** For an answer whose status is not 200, [GetPing] returns no bytes and
    an error whose message gives the probe path, the ping URL and the
    status code; for status 400 with a body that was read to the end the
    body is appended to the message, and a failure to read that body is not
    reported.  The one other outcome is a panic, for status 400 with a
    positive length to which the buffer cannot grow. *)
Theorem GetPing_other_status
  (r : RemoteSysProbeUtil) (clientID host : string) (count interval timeout : Z)
  (req : Request) (resp : Response) :
  NewRequest "GET"
    (pingURL urls ++ "/" ++ host ++ "?client_id=" ++ clientID
     ++ "&count=" ++ fmt_dZ count ++ "&interval=" ++ fmt_dZ interval
     ++ "&timeout=" ++ fmt_dZ timeout) None = inl req ->
  Do (httpClient r) (Header_Set req "Accept" "application/json") = inl resp ->
  StatusCode resp <> 200%Z ->
  (exists value,
     StatusCode resp = 400%Z
     /\ (0 < ContentLength resp)%Z
     /\ Buffer_Grow (ContentLength resp) = Some value
     /\ GetPing urls r clientID host count interval timeout = Panics value)
  \/ exists detail,
       GetPing urls r clientID host count interval timeout
       = Returns ([], Some (errorString
           ("ping request failed: Probe Path " ++ path r
            ++ ", url: " ++ pingURL urls
            ++ ", status code: " ++ fmt_dZ (StatusCode resp) ++ detail)))
       /\ (detail = ""
           \/ exists body, StatusCode resp = 400%Z
                /\ Body resp = (body, None)
                /\ detail = ", error: " ++ string_of_bytes body).
Proof.
  intros Hreq Hdo Hcode. unfold GetPing. rewrite Hreq. cbv zeta.
  unfold contentTypeJSON. rewrite Hdo.
  destruct (StatusCode resp =? http.StatusBadRequest)%Z eqn:Hbad.
  - apply Z.eqb_eq in Hbad. read_body resp.
    + right. exists (", error: " ++ string_of_bytes data).
      split; [reflexivity|]. right. now exists data.
    + right. exists "". rewrite append_empty_r. split; [reflexivity | now left].
    + left. exists value. auto.
  - apply Z.eqb_neq in Hcode. unfold http.StatusOK. rewrite Hcode. cbn [negb].
    right. exists "". rewrite append_empty_r. split; [reflexivity | now left].
Qed.

End ClientProperties.

(** * The client properties on a concrete service *)

Section ClientExamples.

Import net netExample.

(** Three seconds per hop over thirty hops: a hundred seconds. *)
Lemma httpTimeout_exact_witness :
  (httpTimeout 3000000000 30 = 3000000000 * 30 + 10 * time.Second
   /\ 10 * time.Second <= httpTimeout 3000000000 30
   /\ httpTimeout 36170086379822651 255 < 0)%Z.
Proof.
  apply (httpTimeout_exact 3000000000 30); lia.
Defined.

(** A service that answers every ping with status 400 and the body
    [hello]. *)
Lemma GetPing_other_status_witness :
  (exists value,
     StatusCode (answer 400 hello) = 400%Z
     /\ (0 < ContentLength (answer 400 hello))%Z
     /\ Buffer_Grow (ContentLength (answer 400 hello)) = Some value
     /\ GetPing urls (probeUtil (answer 400 hello)) "agent" "10.0.0.1" 2 5 7
        = Panics value)
  \/ exists detail,
       GetPing urls (probeUtil (answer 400 hello)) "agent" "10.0.0.1" 2 5 7
       = Returns ([], Some (errorString
           ("ping request failed: Probe Path "
            ++ path (probeUtil (answer 400 hello))
            ++ ", url: " ++ pingURL urls
            ++ ", status code: " ++ fmt_dZ (StatusCode (answer 400 hello))
            ++ detail)))
       /\ (detail = ""
           \/ exists body, StatusCode (answer 400 hello) = 400%Z
                /\ Body (answer 400 hello) = (body, None)
                /\ detail = ", error: " ++ string_of_bytes body).
Proof.
  apply (@GetPing_other_status transport runtime urls
           (probeUtil (answer 400 hello)) "agent" "10.0.0.1" 2 5 7
           "http://localhost:3333/ping/ping//10.0.0.1?client_id=agent&count=2&interval=5&timeout=7"
           (answer 400 hello));
    [reflexivity | reflexivity | discriminate].
Defined.

End ClientExamples.
